(** * GitHub Sourcing Engine (app.py): velocity estimator, classifier, scan

    A shallow embedding of the decision logic of [src/app.py]:
    [fetch_repos], [get_star_velocity], [bucket_repo] and the scan block
    run when the "Run Sourcing Engine" button is pressed.  Rendering
    (Streamlit widgets, CSS, Plotly charts) has no influence on the values
    computed and is left out.

    Python integers are [Z]; decoded JSON is the inductive [json]; a Python
    exception is the left summand of [raising]; the network and the clock are
    explicit inputs (record [world]). *)

From Stdlib Require Import ZArith List String Ascii Bool Lia.
From Stdlib Require Import Permutation Sorted.
Import ListNotations.
Open Scope Z_scope.
Set Warnings "-register-all".

(* ================================================================== *)
(** ** Python values as the program meets them *)

Module Py.

(** The exceptions the program can meet.  [requests.get] raises a
    transport error, [Response.json] a decoding error; the others come
    from operations on decoded values. *)
Inductive exn : Type :=
| ConnectionError
| JSONDecodeError
| TypeError
| AttributeError
| KeyError
| ValueError.

(** A computation that returns a value or raises. *)
Definition raising (A : Type) : Type := (exn + A)%type.

Definition ret {A} (a : A) : raising A := inr a.
Definition raise {A} (e : exn) : raising A := inl e.
Definition bind {A B} (m : raising A) (k : A -> raising B) : raising B :=
  match m with
  | inl e => inl e
  | inr a => k a
  end.

(** What [json.loads] produces: [None], [bool], [int], [str], [list],
    [dict].  A [dict] is kept as its items in insertion order, one entry
    per key.  Non-integral numbers do not occur in the two endpoints the
    program reads and are not represented. *)
Inductive json : Type :=
| JNull
| JBool (b : bool)
| JNum (n : Z)
| JStr (s : string)
| JArr (items : list json)
| JObj (fields : list (string * json)).

(** [bool(v)], the test behind [if not v]. *)
Definition truthy (v : json) : bool :=
  match v with
  | JNull => false
  | JBool b => b
  | JNum n => negb (n =? 0)
  | JStr s => negb (String.eqb s EmptyString)
  | JArr items => match items with [] => false | _ :: _ => true end
  | JObj fields => match fields with [] => false | _ :: _ => true end
  end.

Fixpoint lookup (key : string) (fields : list (string * json)) : option json :=
  match fields with
  | [] => None
  | (k, v) :: rest => if String.eqb k key then Some v else lookup key rest
  end.

(** [v.get(key, default)]: only a [dict] has the method. *)
Definition get_default (v : json) (key : string) (default : json) : raising json :=
  match v with
  | JObj fields =>
      match lookup key fields with
      | Some x => ret x
      | None => ret default
      end
  | _ => raise AttributeError
  end.

(** [v.get(key)], whose default is [None]. *)
Definition get (v : json) (key : string) : raising json :=
  get_default v key JNull.

(** [v[key]] with a string key. *)
Definition subscript (v : json) (key : string) : raising json :=
  match v with
  | JObj fields =>
      match lookup key fields with
      | Some x => ret x
      | None => raise KeyError
      end
  | _ => raise TypeError
  end.

Fixpoint chars (s : string) : list json :=
  match s with
  | EmptyString => []
  | String c rest => JStr (String c EmptyString) :: chars rest
  end.

(** The elements [for x in v] walks through: the items of a list, the
    keys of a dict, the characters of a string; anything else is not
    iterable.  [len(v)] raises on exactly the same values. *)
Definition iterate (v : json) : raising (list json) :=
  match v with
  | JArr items => ret items
  | JObj fields => ret (map (fun kv => JStr (fst kv)) fields)
  | JStr s => ret (chars s)
  | _ => raise TypeError
  end.

(** [reversed(v)] (dicts are reversible since Python 3.8). *)
Definition reversed (v : json) : raising (list json) :=
  bind (iterate v) (fun items => ret (rev items)).

(** An operand of [//], [>] and [== 0] against an [int]: an [int], or a
    [bool] (which is an [int]); other decoded values raise on [//]. *)
Definition as_int (v : json) : raising Z :=
  match v with
  | JNum n => ret n
  | JBool b => ret (Z.b2z b)
  | _ => raise TypeError
  end.

(** A [requests.Response]: the status code and the decoded body, [None]
    when [Response.json] cannot decode it. *)
Record response : Type := Response { status_code : Z; body : option json }.

Definition response_json (r : response) : raising json :=
  match body r with
  | Some v => ret v
  | None => raise JSONDecodeError
  end.

End Py.
Import Py.

Notation "x <- m ;; k" := (Py.bind m (fun x => k))
  (at level 61, m at next level, right associativity).

(* ================================================================== *)
(** ** Naive datetimes *)

Module Datetime.

(** A naive [datetime] is the number of microseconds since
    0001-01-01T00:00:00; [<] on [Z] is its order and subtracting a
    [timedelta] is subtraction. *)
Definition usec_per_second : Z := 1000000.
Definition usec_per_day : Z := 86400 * usec_per_second.

Definition timedelta (days : Z) : Z := days * usec_per_day.

Definition is_leap (y : Z) : bool :=
  ((y mod 4 =? 0) && negb (y mod 100 =? 0)) || (y mod 400 =? 0).

Definition days_in_month (y m : Z) : Z :=
  if m =? 2 then (if is_leap y then 29 else 28)
  else if (m =? 4) || (m =? 6) || (m =? 9) || (m =? 11) then 30
  else 31.

Definition days_before_year (y : Z) : Z :=
  let p := y - 1 in p * 365 + p / 4 - p / 100 + p / 400.

Fixpoint days_before_month_aux (y : Z) (months : nat) : Z :=
  match months with
  | O => 0
  | S k => days_before_month_aux y k + days_in_month y (Z.of_nat (S k))
  end.

Definition days_before_month (y m : Z) : Z :=
  days_before_month_aux y (Z.to_nat (m - 1)).

(** [datetime(y, mo, d, h, mi, s)]. *)
Definition datetime (y mo d h mi s : Z) : Z :=
  (days_before_year y + days_before_month y mo + (d - 1)) * usec_per_day
  + ((h * 60 + mi) * 60 + s) * usec_per_second.

Definition digit (c : ascii) : option Z :=
  let n := Z.of_nat (nat_of_ascii c) in
  if (48 <=? n) && (n <=? 57) then Some (n - 48) else None.

Definition two (a b : ascii) : option Z :=
  match digit a, digit b with
  | Some x, Some y => Some (10 * x + y)
  | _, _ => None
  end.

Definition four (a b c d : ascii) : option Z :=
  match two a b, two c d with
  | Some x, Some y => Some (100 * x + y)
  | _, _ => None
  end.

Definition in_range (lo v hi : Z) : bool := (lo <=? v) && (v <=? hi).

(** The instant [datetime.strptime(s, "%Y-%m-%dT%H:%M:%SZ")] returns on
    a zero-padded stamp such as ["2024-01-15T12:00:00Z"].  It serves the
    worked examples only: every theorem below is stated for an arbitrary
    parser. *)
Definition strptime_padded (s : string) : option Z :=
  match list_ascii_of_string s with
  | [y1; y2; y3; y4; "-"; m1; m2; "-"; d1; d2; "T";
     h1; h2; ":"; n1; n2; ":"; s1; s2; "Z"]%char =>
      match four y1 y2 y3 y4, two m1 m2, two d1 d2,
            two h1 h2, two n1 n2, two s1 s2 with
      | Some y, Some mo, Some d, Some h, Some mi, Some sec =>
          if in_range 1 y 9999 && in_range 1 mo 12
             && in_range 1 d (days_in_month y mo)
             && in_range 0 h 23 && in_range 0 mi 59 && in_range 0 sec 59
          then Some (datetime y mo d h mi sec)
          else None
      | _, _, _, _, _, _ => None
      end
  | _ => None
  end.

End Datetime.

(* ================================================================== *)
(** ** The classifier *)

(** The four labels [bucket_repo] returns: "Breakout (Huge)", "Breakout",
    "Growing" and "Early" (each behind its pictogram). *)
Inductive tier : Type := BreakoutHuge | Breakout | Growing | Early.

(** [bucket_repo(velocity, stars)]. *)
Definition bucket_repo (velocity stars : Z) : tier :=
  if (stars >? 40000) && (velocity =? 0) then BreakoutHuge
  else if velocity >? 50 then Breakout
  else if velocity >? 10 then Growing
  else Early.

(** The specification's reading of the classifier: an ordered list of
    guarded tiers, the first guard that holds decides, [Early] when none
    does. *)
Definition rule : Type := ((Z -> Z -> bool) * tier)%type.

Definition classify_rules : list rule :=
  [ (fun velocity total_stars => (total_stars >? 40000) && (velocity =? 0),
     BreakoutHuge);
    (fun velocity _ => velocity >? 50, Breakout);
    (fun velocity _ => velocity >? 10, Growing) ].

Fixpoint first_match (rules : list rule) (otherwise : tier)
         (velocity total_stars : Z) : tier :=
  match rules with
  | [] => otherwise
  | (guard, t) :: rest =>
      if guard velocity total_stars then t
      else first_match rest otherwise velocity total_stars
  end.

Definition classify_spec (velocity total_stars : Z) : tier :=
  first_match classify_rules Early velocity total_stars.

(* ================================================================== *)
(** ** The velocity estimator *)

Section Estimator.

(** [datetime.strptime(s, "%Y-%m-%dT%H:%M:%SZ")] on a [str]: the instant
    read, or [None] where it raises [ValueError]. *)
Variable strptime : string -> option Z.

Definition per_page : Z := 100.
Definition max_pages_to_check : Z := 5.
Definition page_ceiling : Z := 400.

(** [datetime.now() - timedelta(days=7)]. *)
Definition cutoff_of (now : Z) : Z := now - Datetime.timedelta 7.

(** [datetime.strptime(v, ...)] on the decoded value [v]. *)
Definition parse_starred_at (v : json) : raising Z :=
  match v with
  | JStr s =>
      match strptime s with
      | Some t => ret t
      | None => raise ValueError
      end
  | _ => raise TypeError
  end.

(** How a block of statements ends: by falling off its end, by [break],
    by [return v], or by an exception on its way out. *)
Inductive completion : Type :=
| Normal
| Break
| Return (v : Z)
| Raise (e : exn).

(** The [for star in reversed(data)] loop, run on the elements in the
    order the loop meets them, from the running count [count_7_days];
    the count it leaves is the second component. *)
Fixpoint for_stars (cutoff_date : Z) (stars : list json) (count_7_days : Z)
  : completion * Z :=
  match stars with
  | [] => (Normal, count_7_days)
  | star :: rest =>
      match Py.get star "starred_at" with
      | inl e => (Raise e, count_7_days)
      | inr starred_at_str =>
          if negb (truthy starred_at_str)
          then for_stars cutoff_date rest count_7_days          (* continue *)
          else
            match parse_starred_at starred_at_str with
            | inl e => (Raise e, count_7_days)
            | inr starred_at =>
                if starred_at >? cutoff_date
                then for_stars cutoff_date rest (count_7_days + 1)
                else (Return count_7_days, count_7_days)
            end
      end
  end.

(** The local variables of [get_star_velocity] the loop changes, and the
    page numbers requested so far, oldest request first. *)
Record state : Type := State {
  count_7_days : Z;
  current_page : Z;
  pages_checked : Z;
  requested : list Z
}.

Definition set_count (st : state) (c : Z) : state :=
  State c (current_page st) (pages_checked st) (requested st).

Section Call.

(** [requests.get] on the stargazers URL of the repository, by page. *)
Variable fetch : Z -> raising response.
Variable cutoff_date : Z.

(** The body of the [try] block. *)
Definition try_body (st : state) : completion * state :=
  let st := State (count_7_days st) (current_page st) (pages_checked st)
                  (requested st ++ [current_page st]) in
  match fetch (current_page st) with
  | inl e => (Raise e, st)
  | inr r =>
      if negb (status_code r =? 200) then (Break, st)
      else
        match response_json r with
        | inl e => (Raise e, st)
        | inr data =>
            if negb (truthy data) then (Break, st)
            else
              match reversed data with
              | inl e => (Raise e, st)
              | inr stars =>
                  match for_stars cutoff_date stars (count_7_days st) with
                  | (Normal, c) =>
                      (Normal,
                       State c (current_page st - 1) (pages_checked st + 1)
                             (requested st))
                  | (k, c) => (k, set_count st c)
                  end
              end
        end
  end.

(** [try: ... except Exception: break]. *)
Definition loop_body (st : state) : completion * state :=
  match try_body st with
  | (Raise _, st') => (Break, st')
  | other => other
  end.

Definition loop_test (st : state) : bool :=
  (pages_checked st <? max_pages_to_check) && (current_page st >? 0).

(** The [while] loop.  [fuel] bounds the iterations; [while_loop_fuel]
    below shows that [max_pages_to_check - pages_checked] is enough, so
    that the first branch is met only when the test fails as well. *)
Fixpoint while_loop (fuel : nat) (st : state) : completion * state :=
  match fuel with
  | O => (Normal, st)
  | S fuel' =>
      if loop_test st then
        match loop_body st with
        | (Normal, st') => while_loop fuel' st'
        | (Break, st') => (Normal, st')
        | other => other
        end
      else (Normal, st)
  end.

End Call.

(** What one call leaves behind: the value returned or the exception
    propagated, and the pages requested, in order. *)
Record call : Type := Call { outcome : raising Z; fetched : list Z }.

Definition last_page_of (total_stars : Z) : Z :=
  let last_page := total_stars / per_page + 1 in
  if last_page >? page_ceiling then page_ceiling else last_page.

(** How the function ends once the loop is left: a [return] inside
    the loop has fixed the value, an exception passes through, and
    otherwise the final [return count_7_days] runs. *)
Definition finish (r : completion * state) : call :=
  match r with
  | (Return v, st) => Call (ret v) (requested st)
  | (Raise e, st) => Call (raise e) (requested st)
  | (_, st) => Call (ret (count_7_days st)) (requested st)
  end.

(** [get_star_velocity(owner, repo, total_stars)]; [owner] and [repo]
    only select the URL, that is [fetch]; [now] is [datetime.now()]. *)
Definition get_star_velocity (now : Z) (fetch : Z -> raising response)
           (total_stars : Z) : call :=
  if total_stars =? 0 then Call (ret 0) []
  else
    let last_page := last_page_of total_stars in
    let cutoff_date := cutoff_of now in
    finish (while_loop fetch cutoff_date (Z.to_nat max_pages_to_check)
                       (State 0 last_page 0 [])).

End Estimator.

(* ================================================================== *)
(** ** Search client and scan *)

(** One entry of [results]: the dict appended per repository. *)
Record row : Type := Row {
  Name : json;
  Description : json;
  Stars : json;
  Velocity : Z;
  Bucket : tier;
  URL : json;
  Owner : json
}.

(** What the program reads from outside: the search endpoint (by topic
    and [per_page]), the stargazers endpoint (by owner, repository and
    page) and the clock, the last two as met by the estimator call of the
    [i]-th repository of the scan. *)
Record world : Type := World {
  search : string -> Z -> raising response;
  stargazers : nat -> json -> json -> Z -> raising response;
  clock : nat -> Z
}.

(** The sidebar widgets. *)
Record ui : Type := Ui {
  selected_preset : string;
  text_input : string;
  days_back : Z;
  run_pressed : bool
}.

(** Rows in descending order of velocity. *)
Definition velocity_ge (a b : row) : Prop := Velocity b <= Velocity a.

(** The order of [sort_values] between two rows of the table, each with
    its position in the table: by the key, in the direction asked for,
    and for equal keys by the rank [prio] gives to their positions. *)
Definition comes_before (key : row -> Z) (ascending : bool) (prio : nat -> Z)
           (x y : nat * row) : bool :=
  let kx := key (snd x) in
  let ky := key (snd y) in
  if kx =? ky then prio (fst x) <=? prio (fst y)
  else if ascending then kx <? ky else ky <? kx.

(** [x] put in its place in a list that is in order. *)
Fixpoint place {A : Type} (before : A -> A -> bool) (x : A) (l : list A)
  : list A :=
  match l with
  | [] => [x]
  | y :: rest => if before x y then x :: l else y :: place before x rest
  end.

Definition arrange {A : Type} (before : A -> A -> bool) (l : list A) : list A :=
  fold_right (place before) [] l.

(** [df.sort_values(by=key, ascending=ascending)] on an integer column:
    the rows of [df] in the order of the key.  The default algorithm is
    not stable, so the call does not fix the order among rows of equal
    key; [tie df] stands for what the algorithm does with them: such rows
    come in increasing [tie df i], [i] their position in [df], and in
    the order of [df] where that is equal too. *)
Definition sort_values (tie : list row -> nat -> Z) (key : row -> Z)
           (ascending : bool) (df : list row) : list row :=
  map snd (arrange (comes_before key ascending (tie df))
                   (combine (seq 0 (List.length df)) df)).

Section Scan.

Variable strptime : string -> option Z.

(** What the sort does with rows of equal velocity. *)
Variable tie : list row -> nat -> Z.

Variable w : world.

(** [fetch_repos(topic, limit=30)], one evaluation of its body (the
    [st.cache_data] wrapper replays the value it returned). *)
Definition fetch_repos (topic : string) (limit : Z) : json :=
  match (response <- search w topic limit ;;
         if negb (status_code response =? 200) then ret (JArr [])
         else
           decoded <- response_json response ;;
           get_default decoded "items" (JArr []))
  with
  | inl _ => JArr []
  | inr items => items
  end.

(** The body of [for i, repo in enumerate(repos)], in the order Python
    evaluates it.  [get_star_velocity] compares and divides
    [repo['stargazers_count']] before its first request, which raises
    [TypeError] unless it is a number. *)
Definition scan_repo (i : nat) (repo : json) : raising row :=
  _ <- subscript repo "name" ;;
  owner <- subscript repo "owner" ;;
  login <- subscript owner "login" ;;
  name <- subscript repo "name" ;;
  stargazers_count <- subscript repo "stargazers_count" ;;
  total_stars <- as_int stargazers_count ;;
  velocity <- outcome (get_star_velocity strptime (clock w i)
                         (stargazers w i login name) total_stars) ;;
  let bucket := bucket_repo velocity total_stars in
  description <- subscript repo "description" ;;
  html_url <- subscript repo "html_url" ;;
  ret (Row name description stargazers_count velocity bucket html_url login).

Fixpoint scan_loop (i : nat) (repos : list json) (results : list row)
  : raising (list row) :=
  match repos with
  | [] => ret results
  | repo :: rest =>
      r <- scan_repo i repo ;;
      scan_loop (S i) rest (results ++ [r])
  end.

(** The block under [if run_pressed:], up to the sorted table; the
    empty list stands for the "No repositories found" branch. *)
Definition run_scan (topic : string) : raising (list row) :=
  let repos := fetch_repos topic 30 in
  items <- iterate repos ;;
  results <- scan_loop 0 items [] ;;
  match results with
  | [] => ret []
  | _ :: _ => ret (sort_values tie Velocity false results)
  end.

Definition topic_of (u : ui) : string :=
  if String.eqb (selected_preset u) "Custom" then text_input u
  else selected_preset u.

(** One run of the script: nothing is scanned unless the button was
    pressed. *)
Definition script (u : ui) : option (raising (list row)) :=
  if run_pressed u then Some (run_scan (topic_of u)) else None.

End Scan.


(* ================================================================== *)
(** ** The dashboard metrics *)

(** The string [bucket_repo] returns for each tier, byte for byte the
    literal of the source; the table keeps it in the column "Bucket". *)
Definition label (t : tier) : string :=
  match t with
  | BreakoutHuge => "ðŸ”¥ Breakout (Huge)"
  | Breakout => "ðŸ”¥ Breakout"
  | Growing => "ðŸ“ˆ Growing"
  | Early => "ðŸ‘¶ Early"
  end.

(** [pat in s] for a pattern without regular-expression operators, which
    is what [Series.str.contains(pat)] tests on each entry. *)
Fixpoint contains (pat s : string) : bool :=
  String.prefix pat s
  || match s with
     | EmptyString => false
     | String _ rest => contains pat rest
     end.

(** [len(df)], shown as "Candidates Scanned". *)
Definition candidates_scanned (df : list row) : nat := List.length df.

(** [len(df[df['Bucket'].str.contains("Breakout")])], shown as
    "Breakout Signals". *)
Definition breakout_count (df : list row) : nat :=
  List.length (filter (fun r => contains "Breakout" (label (Bucket r))) df).

(** [df.iloc[0]['Name']], shown as "Top Mover"; [None] where [iloc]
    raises [IndexError]. *)
Definition top_repo (df : list row) : option json :=
  match df with
  | [] => None
  | r :: _ => Some (Name r)
  end.

(** [df.head(10)], the rows of the "Velocity Leaders" chart. *)
Definition top_10 (df : list row) : list row := firstn 10 df.

(* ================================================================== *)
(** ** Vocabulary of the statements *)

(** The events a response offers to the [for] loop, in the order the
    loop meets them; none when the page ends the walk before the loop. *)
Definition page_events (r : raising response) : list json :=
  match r with
  | inl _ => []
  | inr resp =>
      if status_code resp =? 200 then
        match body resp with
        | Some data =>
            if truthy data then
              match reversed data with
              | inr stars => stars
              | inl _ => []
              end
            else []
        | None => []
        end
      else []
  end.

Definition events_served (fetch : Z -> raising response) (pages : list Z) : Z :=
  fold_right (fun p acc => Z.of_nat (List.length (page_events (fetch p))) + acc) 0 pages.

(** The pages [p, p - 1, ...], [n] of them. *)
Definition countdown (p : Z) (n : nat) : list Z :=
  map (fun i => p - Z.of_nat i) (seq 0 n).

(** A page fetch that fails before any event is read: the request raises,
    the status is not 200, the body does not decode, or it decodes to an
    empty (falsy) value. *)
Inductive page_failed : raising response -> Prop :=
| failed_transport (e : exn) : page_failed (inl e)
| failed_status (code : Z) (b : option json) :
    code <> 200 -> page_failed (inr (Response code b))
| failed_decoding : page_failed (inr (Response 200 None))
| failed_empty (data : json) :
    truthy data = false -> page_failed (inr (Response 200 (Some data))).

(** The state once the request for the current page has been logged. *)
Definition logged (st : state) : state :=
  State (count_7_days st) (current_page st) (pages_checked st)
        (requested st ++ [current_page st]).

(** A stargazer history served the way the endpoint does: [hist] lists
    the events oldest first, page [p >= 1] holds the events of rank
    [100 (p - 1) + 1 .. 100 p], and every request succeeds. *)
Definition page_of (hist : list json) (p : Z) : list json :=
  firstn (Z.to_nat per_page) (skipn (Z.to_nat (per_page * (p - 1))) hist).

Definition serve (hist : list json) (p : Z) : raising response :=
  ret (Response 200 (Some (JArr (page_of hist p)))).

(** The instant an event carries, when it is an object whose
    ["starred_at"] is a non-empty string the parser reads. *)
Definition star_time (strptime : string -> option Z) (star : json) : option Z :=
  match Py.get star "starred_at" with
  | inr v =>
      if truthy v then
        match parse_starred_at strptime v with
        | inr t => Some t
        | inl _ => None
        end
      else None
  | inl _ => None
  end.

(** The length of the run of instants strictly after the cutoff that
    opens a list. *)
Fixpoint leading (cutoff : Z) (times : list Z) : nat :=
  match times with
  | [] => O
  | t :: rest => if t >? cutoff then S (leading cutoff rest) else O
  end.

(** The number of instants strictly after the cutoff. *)
Definition count_after (cutoff : Z) (times : list Z) : Z :=
  Z.of_nat (List.length (filter (fun t => t >? cutoff) times)).

(** The number of events on the five pages the walk can reach from the
    last page of a history of [total] events, [total] not a multiple of
    100: the partial last page and four full ones, or the whole
    history. *)
Definition reach (total : Z) : Z :=
  Z.min total (total mod per_page + per_page * (max_pages_to_check - 1)).

(** [ceil(total / 100)]. *)
Definition ceil_pages (total : Z) : Z := (total + per_page - 1) / per_page.

(** A well-formed repository summary of the search response. *)
Definition summary (name login description html_url : json) (stars : Z) : json :=
  JObj [ ("name"%string, name);
         ("owner"%string, JObj [("login"%string, login)]);
         ("description"%string, description);
         ("stargazers_count"%string, JNum stars);
         ("html_url"%string, html_url) ].

(** [repo] reads as a repository summary: the keys the scan subscripts
    are there, and the star count is an integer. *)
Definition summary_of (repo name login description html_url : json)
           (stars : Z) : Prop :=
  exists owner,
    subscript repo "name" = inr name
    /\ subscript repo "owner" = inr owner
    /\ subscript owner "login" = inr login
    /\ subscript repo "stargazers_count" = inr (JNum stars)
    /\ subscript repo "description" = inr description
    /\ subscript repo "html_url" = inr html_url.

Definition is_summary (repo : json) : Prop :=
  exists name login description html_url stars,
    summary_of repo name login description html_url stars.

(** The rows the scan owes to the repositories from the [i]-th on, in
    input order: the fields of the summary, the velocity the estimator
    returns for it, and the tier of that velocity. *)
Inductive rows_of (strptime : string -> option Z) (w : world)
  : nat -> list json -> list row -> Prop :=
| rows_of_nil (i : nat) : rows_of strptime w i [] []
| rows_of_cons (i : nat) (repo name login description html_url : json)
               (stars v : Z) (rest : list json) (rows : list row) :
    summary_of repo name login description html_url stars ->
    outcome (get_star_velocity strptime (clock w i)
               (stargazers w i login name) stars) = inr v ->
    rows_of strptime w (S i) rest rows ->
    rows_of strptime w i (repo :: rest)
            (Row name description (JNum stars) v (bucket_repo v stars)
                 html_url login :: rows).

(** An event object without a usable timestamp: ["starred_at"] is
    missing, or is [None], the empty string or another empty value. *)
Definition no_timestamp (star : json) : Prop :=
  exists fields,
    star = JObj fields
    /\ match lookup "starred_at" fields with
       | None => True
       | Some v => truthy v = false
       end.

(** A search request that fails: transport error, status other than 200,
    or a body that does not decode. *)
Inductive search_failed : raising response -> Prop :=
| search_transport (e : exn) : search_failed (inl e)
| search_status (code : Z) (b : option json) :
    code <> 200 -> search_failed (inr (Response code b))
| search_decoding : search_failed (inr (Response 200 None)).

(* ================================================================== *)
(** ** Inputs of the worked examples *)

Module Sample.

(** A stargazer entry as the endpoint lists it. *)
Definition star_at (stamp : string) : json :=
  JObj [ ("starred_at"%string, JStr stamp);
         ("user"%string, JObj [("login"%string, JStr "octocat")]) ].

Definition ok (events : list json) : raising response :=
  ret (Response 200 (Some (JArr events))).

Definition unavailable : raising response :=
  ret (Response 500 None).

(** 2024-01-15T12:00:00; the cutoff is then 2024-01-08T12:00:00. *)
Definition noon : Z := Datetime.datetime 2024 1 15 12 0 0.

Definition two_recent : list json :=
  [star_at "2024-01-13T09:00:00Z"; star_at "2024-01-14T09:00:00Z"].

(** Three events, the last two inside the window of [noon]. *)
Definition short_history : list json :=
  [ star_at "2024-01-05T08:30:00Z";
    star_at "2024-01-09T17:45:10Z";
    star_at "2024-01-12T23:59:59Z" ].

Definition short_times : list Z :=
  [ Datetime.datetime 2024 1 5 8 30 0;
    Datetime.datetime 2024 1 9 17 45 10;
    Datetime.datetime 2024 1 12 23 59 59 ].

Definition two_digits (n : Z) : string :=
  String (ascii_of_nat (Z.to_nat (48 + n / 10)))
         (String (ascii_of_nat (Z.to_nat (48 + n mod 10))) EmptyString).

(** The stamp of the [sec]-th second of 2024-01-10. *)
Definition stamp_jan_10 (sec : Z) : string :=
  ("2024-01-10T" ++ two_digits (sec / 3600) ++ ":"
   ++ two_digits ((sec / 60) mod 60) ++ ":"
   ++ two_digits (sec mod 60) ++ "Z")%string.

Fixpoint upfrom (start : Z) (len : nat) : list Z :=
  match len with
  | O => []
  | S k => start :: upfrom (start + 1) k
  end.

Definition busy_size : nat := Z.to_nat 40150.

(** A history of 40150 events, one a second from 2024-01-10T00:00:00. *)
Definition busy_day : list json :=
  map (fun sec => star_at (stamp_jan_10 sec)) (upfrom 0 busy_size).

Definition busy_times : list Z :=
  map (fun sec => Datetime.datetime 2024 1 10 0 0 0
                  + sec * Datetime.usec_per_second)
      (upfrom 0 busy_size).

(** 2024-01-17T11:08:19: seven days after the 40100th event of
    [busy_day], so that exactly its last 50 events are in the window. *)
Definition busy_now : Z := Datetime.datetime 2024 1 17 11 8 19.

Fixpoint increasing (ts : list Z) : bool :=
  match ts with
  | [] => true
  | t :: rest =>
      match rest with
      | [] => true
      | u :: _ => (t <? u) && increasing rest
      end
  end.

Definition same_instant (a b : option Z) : bool :=
  match a, b with
  | Some x, Some y => x =? y
  | None, None => true
  | _, _ => false
  end.

(** A history of 100 events, one a second from 2024-01-10T00:00:00, all
    inside the window of [noon]. *)
Definition hundred : list json :=
  map (fun sec => star_at (stamp_jan_10 sec)) (upfrom 0 100).

Definition repo_a : json :=
  summary (JStr "tokio") (JStr "tokio-rs") (JStr "runtime")
          (JStr "https://github.com/tokio-rs/tokio") 100000.

Definition repo_b : json :=
  summary (JStr "axum") (JStr "tokio-rs") JNull
          (JStr "https://github.com/tokio-rs/axum") 250.

(** The search finds [repo_a] and [repo_b]; the stargazer pages of the
    first are unavailable, each page of the second holds [two_recent]. *)
Definition two_repos : world :=
  World (fun _ _ =>
           ret (Response 200
                  (Some (JObj [("total_count"%string, JNum 2);
                               ("items"%string, JArr [repo_a; repo_b])]))))
        (fun i _ _ _ => match i with O => unavailable | _ => ok two_recent end)
        (fun _ => noon).

Definition search_down : world :=
  World (fun _ _ => unavailable)
        (fun _ _ _ _ => raise ConnectionError)
        (fun _ => noon).

(** Worlds whose search response is off the expected shape: an item
    without ["name"] after a well-formed one, no ["items"] at all, and
    ["items"] set to [null]. *)
Definition nameless : json :=
  JObj [ ("full_name"%string, JStr "tokio-rs/mio");
         ("stargazers_count"%string, JNum 6000) ].

Definition found (body : json) : world :=
  World (fun _ _ => ret (Response 200 (Some body)))
        (fun _ _ _ _ => ok two_recent)
        (fun _ => noon).

Definition one_nameless : world :=
  found (JObj [("items"%string, JArr [repo_b; nameless])]).

Definition rate_limited : world :=
  found (JObj [("message"%string, JStr "API rate limit exceeded")]).

Definition null_items : world :=
  found (JObj [("total_count"%string, JNum 0); ("items"%string, JNull)]).

(** A network that answers only on pages 1 to 3. *)
Definition three_pages (p : Z) : raising response :=
  if (1 <=? p) && (p <=? 3) then ok two_recent else unavailable.

(** Rows of equal velocity left in the order of the table. *)
Definition by_position (df : list row) (i : nat) : Z := Z.of_nat i.

(** Rows of equal velocity with the later position first. *)
Definition last_first (df : list row) (i : nat) : Z := - Z.of_nat i.

Definition row_axum : row :=
  Row (JStr "axum") JNull (JNum 250) 6 Early
      (JStr "https://github.com/tokio-rs/axum") (JStr "tokio-rs").

Definition row_tokio : row :=
  Row (JStr "tokio") (JStr "runtime") (JNum 100000) 0 BreakoutHuge
      (JStr "https://github.com/tokio-rs/tokio") (JStr "tokio-rs").

Definition row_mio : row :=
  Row (JStr "mio") JNull (JNum 6000) 6 Early
      (JStr "https://github.com/tokio-rs/mio") (JStr "tokio-rs").

End Sample.

(* ================================================================== *)
(** ** The classifier: properties *)

Lemma bucket_repo_refines_spec (velocity stars : Z) :
  bucket_repo velocity stars = classify_spec velocity stars.
Proof.
  unfold bucket_repo, classify_spec, classify_rules, first_match.
  destruct ((stars >? 40000) && (velocity =? 0)); [reflexivity|].
  destruct (velocity >? 50); [reflexivity|].
  destruct (velocity >? 10); reflexivity.
Qed.

(** C3.  The classifier is the ordered decision list of the
    specification, first match wins: huge-and-zero, then above 50, then
    above 10, then [Early]; velocity 0 with 50000 stars is [BreakoutHuge];
    the thresholds are strict (51 / 50 / 11 / 10) whatever the star
    count. *)
Theorem C3_bucket_repo_decision_list :
  (forall velocity stars,
      bucket_repo velocity stars = classify_spec velocity stars)
  /\ (forall velocity stars,
        bucket_repo velocity stars =
        if (stars >? 40000) && (velocity =? 0) then BreakoutHuge
        else if velocity >? 50 then Breakout
        else if velocity >? 10 then Growing
        else Early)
  /\ bucket_repo 0 50000 = BreakoutHuge
  /\ (forall x, bucket_repo 51 x = Breakout)
  /\ (forall x, bucket_repo 50 x = Growing)
  /\ (forall x, bucket_repo 11 x = Growing)
  /\ (forall x, bucket_repo 10 x = Early).
Proof.
  split; [exact bucket_repo_refines_spec|].
  split; [reflexivity|].
  split; [reflexivity|].
  repeat split; intro x; unfold bucket_repo;
    rewrite andb_false_r; reflexivity.
Qed.

(* ================================================================== *)
(** ** The velocity estimator: the loops *)

Section EstimatorFacts.

Variable strptime : string -> option Z.

Lemma for_stars_bounds (cutoff : Z) (stars : list json) :
  forall c k c',
    for_stars strptime cutoff stars c = (k, c') ->
    c <= c' <= c + Z.of_nat (List.length stars)
    /\ k <> Break
    /\ (forall v, k = Return v -> v = c').
Proof.
  induction stars as [|star rest IH]; intros c k c' H; simpl in H.
  - inversion H; subst. simpl. repeat split; try lia; congruence.
  - cbn [List.length]. rewrite Nat2Z.inj_succ.
    destruct (Py.get star "starred_at") as [e|v].
    { inversion H; subst. repeat split; try lia; congruence. }
    destruct (negb (truthy v)).
    { apply IH in H. destruct H as (? & ? & ?). repeat split; auto; lia. }
    destruct (parse_starred_at strptime v) as [e|t].
    { inversion H; subst. repeat split; try lia; congruence. }
    destruct (t >? cutoff).
    + apply IH in H. destruct H as (? & ? & ?). repeat split; auto; lia.
    + inversion H; subst. repeat split; try lia; congruence.
Qed.

Section LoopFacts.

Variable fetch : Z -> raising response.
Variable cutoff : Z.

Local Abbreviation body_of_try := (try_body strptime fetch cutoff).
Local Abbreviation body_of_loop := (loop_body strptime fetch cutoff).
Local Abbreviation loop := (while_loop strptime fetch cutoff).

(** What one run of the [try] block does to the state. *)
Lemma try_body_effect (st : state) :
  forall k st',
    body_of_try st = (k, st') ->
    requested st' = requested st ++ [current_page st]
    /\ count_7_days st <= count_7_days st'
       <= count_7_days st
          + Z.of_nat (List.length (page_events (fetch (current_page st))))
    /\ (k = Normal ->
        current_page st' = current_page st - 1
        /\ pages_checked st' = pages_checked st + 1)
    /\ (k <> Normal ->
        current_page st' = current_page st
        /\ pages_checked st' = pages_checked st)
    /\ (forall v, k = Return v -> v = count_7_days st').
Proof.
  intros k st' H. unfold try_body, page_events in *.
  simpl in H.
  destruct (fetch (current_page st)) as [e|r].
  { inversion H; subst; simpl. repeat split; try lia; congruence. }
  destruct (status_code r =? 200); simpl in H.
  2:{ inversion H; subst; simpl. repeat split; try lia; congruence. }
  unfold response_json in H.
  destruct (body r) as [data|]; simpl in H.
  2:{ inversion H; subst; simpl. repeat split; try lia; congruence. }
  destruct (truthy data); simpl in H.
  2:{ inversion H; subst; simpl. repeat split; try lia; congruence. }
  destruct (reversed data) as [e|stars].
  { inversion H; subst; simpl. repeat split; try lia; congruence. }
  destruct (for_stars strptime cutoff stars (count_7_days st)) as [k0 c] eqn:F.
  apply for_stars_bounds in F. destruct F as (Hc & Hb & Hr).
  destruct k0; inversion H; subst; simpl;
    repeat split; try lia; try congruence; auto.
Qed.

Lemma loop_body_effect (st : state) :
  forall k st',
    body_of_loop st = (k, st') ->
    requested st' = requested st ++ [current_page st]
    /\ count_7_days st <= count_7_days st'
       <= count_7_days st
          + Z.of_nat (List.length (page_events (fetch (current_page st))))
    /\ (k = Normal ->
        current_page st' = current_page st - 1
        /\ pages_checked st' = pages_checked st + 1)
    /\ (forall v, k = Return v -> v = count_7_days st')
    /\ (forall e, k <> Raise e).
Proof.
  intros k st' H. unfold loop_body in H.
  destruct (body_of_try st) as [k0 st0] eqn:T.
  apply try_body_effect in T. destruct T as (Hr & Hc & Hn & _ & Hv).
  destruct k0; inversion H; subst;
    repeat split; try lia; try congruence; auto; try apply Hn; auto.
Qed.

Lemma countdown_S (p : Z) (n : nat) :
  countdown p (S n) = p :: countdown (p - 1) n.
Proof.
  unfold countdown. simpl. f_equal; [f_equal; lia|].
  rewrite <- seq_shift, map_map. apply map_ext. intro i. lia.
Qed.

(** The loop invariant, read off the final state: only pages counted
    down from the current one were requested, no more of them than the
    budget left, the count grew by no more than the events they served,
    and the loop was left by its test, by [break] or by [return]. *)
Lemma while_loop_effect (fuel : nat) :
  forall st k st',
    loop fuel st = (k, st') ->
    exists n,
      requested st' = requested st ++ countdown (current_page st) n
      /\ (n <= fuel)%nat
      /\ Z.of_nat n <= Z.max 0 (max_pages_to_check - pages_checked st)
      /\ Z.of_nat n <= Z.max 0 (current_page st)
      /\ count_7_days st <= count_7_days st'
         <= count_7_days st
            + events_served fetch (countdown (current_page st) n)
      /\ (k = Normal \/ k = Return (count_7_days st')).
Proof.
  induction fuel as [|fuel IH]; intros st k st' H; simpl in H.
  - inversion H; subst. exists O. unfold countdown, events_served.
    cbn [seq map fold_right]. rewrite app_nil_r.
    repeat split; try lia; auto.
  -     destruct (loop_test st) eqn:T.
    2:{ inversion H; subst. exists O. unfold countdown, events_served.
        cbn [seq map fold_right]. rewrite app_nil_r.
        repeat split; try lia; auto. }
    unfold loop_test in T. apply andb_prop in T. destruct T as [T1 T2].
    apply Z.ltb_lt in T1. apply Z.gtb_lt in T2.
    destruct (body_of_loop st) as [k0 st0] eqn:B.
    apply loop_body_effect in B. destruct B as (Hr & Hc & Hn & Hv & He).
    assert (Hone : forall k1, k1 = Normal \/ k1 = Return (count_7_days st0) ->
                   (k, st') = (k1, st0) ->
                   exists n,
                     requested st' = requested st ++ countdown (current_page st) n
                     /\ (n <= S fuel)%nat
                     /\ Z.of_nat n <= Z.max 0 (max_pages_to_check - pages_checked st)
                     /\ Z.of_nat n <= Z.max 0 (current_page st)
                     /\ count_7_days st <= count_7_days st'
                        <= count_7_days st
                           + events_served fetch (countdown (current_page st) n)
                     /\ (k = Normal \/ k = Return (count_7_days st'))).
    { intros k1 Hk1 E. inversion E; subst. exists 1%nat.
      unfold countdown, events_served. cbn [seq map fold_right].
      change (Z.of_nat 0) with 0. rewrite Z.sub_0_r.
      repeat split; try lia; auto. }
    destruct k0.
    + destruct (Hn eq_refl) as [Hp Hq].
      apply IH in H. destruct H as (n & Hreq & Hle & Hbud & Hpos & Hcnt & Hk).
      exists (S n). rewrite countdown_S. rewrite Hreq, Hr, <- app_assoc.
      unfold events_served in *. cbn [fold_right app].
      rewrite Hp in *. rewrite Hq in *.
      repeat split; try lia; auto.
    + apply (Hone Normal); auto.
    + apply (Hone (Return v)); [right; f_equal; auto | auto].
    + exfalso. now apply (He e).
Qed.

(** Fuel is no constraint: once it covers the pages left in the budget,
    one more unit changes nothing, so the loop is never cut short. *)
Lemma while_loop_fuel (fuel : nat) :
  forall st,
    max_pages_to_check - pages_checked st <= Z.of_nat fuel ->
    loop (S fuel) st = loop fuel st.
Proof.
  induction fuel as [|fuel IH]; intros st Hb.
  - cbn [while_loop]. unfold loop_test.
    change (Z.of_nat 0) with 0 in Hb.
    replace (pages_checked st <? max_pages_to_check) with false; [reflexivity|].
    symmetry. apply Z.ltb_ge. lia.
  - cbn [while_loop].
    destruct (loop_test st); [|reflexivity].
    destruct (body_of_loop st) as [k0 st0] eqn:B.
    apply loop_body_effect in B. destruct B as (_ & _ & Hn & _ & _).
    destruct k0; try reflexivity.
    destruct (Hn eq_refl) as [_ Hq].
    apply IH. lia.
Qed.

Lemma while_loop_enough (extra fuel : nat) (st : state) :
  max_pages_to_check - pages_checked st <= Z.of_nat fuel ->
  loop (fuel + extra) st = loop fuel st.
Proof.
  intro Hb. induction extra as [|extra IH].
  - now rewrite Nat.add_0_r.
  - rewrite Nat.add_succ_r, while_loop_fuel by lia. exact IH.
Qed.

End LoopFacts.

(** A call returns: it never raises, requests pages counted down from
    [last_page], positive ones and at most five, and counts no more than
    the events these pages served. *)
Lemma get_star_velocity_effect (now : Z) (fetch : Z -> raising response)
      (total_stars : Z) :
  exists v n,
    get_star_velocity strptime now fetch total_stars
    = Call (ret v) (countdown (last_page_of total_stars) n)
    /\ (n <= 5)%nat
    /\ Z.of_nat n <= Z.max 0 (last_page_of total_stars)
    /\ 0 <= v <= events_served fetch (countdown (last_page_of total_stars) n).
Proof.
  unfold get_star_velocity.
  destruct (total_stars =? 0).
  - exists 0, O. unfold countdown, events_served. cbn [seq map fold_right].
    repeat split; lia.
  - destruct (while_loop strptime fetch (cutoff_of now)
                (Z.to_nat max_pages_to_check)
                (State 0 (last_page_of total_stars) 0 [])) as [k st'] eqn:W.
    apply while_loop_effect in W.
    destruct W as (n & Hreq & Hle & _ & Hpos & Hcnt & Hk).
    cbn [requested count_7_days current_page app] in *.
    exists (count_7_days st'), n.
    split; [|repeat split; try lia].
    + destruct Hk as [-> | ->]; unfold finish; now rewrite Hreq.
    + change (Z.to_nat max_pages_to_check) with 5%nat in Hle. lia.
Qed.

(** C4.  One call requests at most five pages; with [total_stars = 0] it
    returns 0 and requests none. *)
Theorem C4_page_budget :
  forall (now : Z) (fetch : Z -> raising response) (total_stars : Z),
    (List.length (fetched (get_star_velocity strptime now fetch total_stars))
     <= 5)%nat
    /\ get_star_velocity strptime now fetch 0 = Call (ret 0) [].
Proof.
  intros now fetch total_stars. split; [|reflexivity].
  destruct (get_star_velocity_effect now fetch total_stars)
    as (v & n & E & Hn & _).
  rewrite E. cbn [fetched]. unfold countdown.
  now rewrite length_map, length_seq.
Qed.

(** C9.  In the page scan an event object whose ["starred_at"] is missing
    or empty is passed over: met first, the scan goes on with the events
    after it from the same count; met after events that were counted, the
    scan ends as if it were not on the page. *)
Theorem C9_event_without_timestamp_skipped :
  forall (cutoff : Z) (star : json),
    no_timestamp star ->
    (forall (rest : list json) (count : Z),
        for_stars strptime cutoff (star :: rest) count
        = for_stars strptime cutoff rest count)
    /\ (forall (newer older : list json) (count : Z),
          for_stars strptime cutoff (newer ++ star :: older) count
          = for_stars strptime cutoff (newer ++ older) count).
Proof.
  intros cutoff star (fields & -> & Hf).
  assert (Hskip : forall rest count,
             for_stars strptime cutoff (JObj fields :: rest) count
             = for_stars strptime cutoff rest count).
  { intros rest count. cbn [for_stars]. unfold Py.get, get_default.
    destruct (lookup "starred_at" fields) as [v|]; unfold ret.
    - now rewrite Hf.
    - reflexivity. }
  split; [exact Hskip|].
  induction newer as [|x newer IH]; intros older count.
  - apply Hskip.
  - cbn [app for_stars].
    destruct (Py.get x "starred_at") as [e|v]; [reflexivity|].
    destruct (negb (truthy v)); [apply IH|].
    destruct (parse_starred_at strptime v) as [e|t]; [reflexivity|].
    destruct (t >? cutoff); [apply IH | reflexivity].
Qed.

(** Entered with its test true, the loop requests the current page
    first. *)
Lemma while_loop_first (fetch : Z -> raising response) (cutoff : Z)
      (fuel : nat) (st : state) :
  loop_test st = true ->
  exists rest,
    requested (snd (while_loop strptime fetch cutoff (S fuel) st))
    = requested st ++ current_page st :: rest.
Proof.
  intro T. cbn [while_loop]. rewrite T.
  destruct (loop_body strptime fetch cutoff st) as [k0 st0] eqn:B.
  apply loop_body_effect in B. destruct B as (Hr & _).
  destruct k0; cbn [snd]; try (exists []; exact Hr).
  destruct (while_loop strptime fetch cutoff fuel st0) as [k st'] eqn:W.
  apply while_loop_effect in W. destruct W as (n & Hreq & _).
  exists (countdown (current_page st0) n). cbn [snd].
  now rewrite Hreq, Hr, <- app_assoc.
Qed.

(** Whatever leaves the [try] block other than by falling off its end
    leaves the loop as well, with the state it left. *)
Lemma while_loop_stops (fetch : Z -> raising response) (cutoff : Z)
      (fuel : nat) (st st' : state) (k : completion) :
  loop_test st = true ->
  try_body strptime fetch cutoff st = (k, st') ->
  k <> Normal ->
  finish (while_loop strptime fetch cutoff (S fuel) st)
  = Call (ret (count_7_days st')) (requested st ++ [current_page st]).
Proof.
  intros T B Hk. cbn [while_loop]. rewrite T. unfold loop_body. rewrite B.
  apply try_body_effect in B. destruct B as (Hr & _ & _ & _ & Hv).
  destruct k; try congruence; unfold finish; rewrite Hr; try reflexivity.
  now rewrite (Hv v eq_refl).
Qed.


Lemma first_page_arith (total_stars : Z) :
  last_page_of total_stars = Z.min (total_stars / 100 + 1) 400.
Proof.
  unfold last_page_of, per_page, page_ceiling.
  destruct (Z.gtb_spec (total_stars / 100 + 1) 400); lia.
Qed.

Lemma ceil_pages_off_multiple (total_stars : Z) :
  total_stars mod 100 <> 0 ->
  ceil_pages total_stars = total_stars / 100 + 1.
Proof.
  intro Hm. unfold ceil_pages, per_page.
  pose proof (Z.div_mod total_stars 100 ltac:(lia)) as D.
  pose proof (Z.mod_pos_bound total_stars 100 ltac:(lia)) as B.
  symmetry. apply Z.div_unique with (r := total_stars mod 100 - 1); lia.
Qed.

(** C5, as the code has it.  With [total_stars >= 1] the first page
    requested is [floor(total_stars / 100) + 1], clamped to 400; below
    40000 stars and off the multiples of 100 that is
    [ceil(total_stars / 100)], the last page of the history. *)
Theorem C5_first_page :
  forall (now : Z) (fetch : Z -> raising response) (total_stars : Z),
    1 <= total_stars ->
    hd_error (fetched (get_star_velocity strptime now fetch total_stars))
    = Some (Z.min (total_stars / 100 + 1) 400)
    /\ (total_stars < 40000 ->
        total_stars mod 100 <> 0 ->
        Z.min (total_stars / 100 + 1) 400 = ceil_pages total_stars).
Proof.
  intros now fetch total_stars Hpos. split.
  - unfold get_star_velocity.
    replace (total_stars =? 0) with false by (symmetry; apply Z.eqb_neq; lia).
    assert (Hdiv : 0 <= total_stars / 100) by (apply Z.div_pos; lia).
    assert (T : loop_test (State 0 (last_page_of total_stars) 0 []) = true).
    { unfold loop_test. cbn [pages_checked current_page].
      rewrite first_page_arith. apply andb_true_intro. split.
      - reflexivity.
      - apply Z.gtb_lt. lia. }
    destruct (while_loop_first fetch (cutoff_of now) 4 _ T) as (rest & Hreq).
    change (Z.to_nat max_pages_to_check) with 5%nat.
    destruct (while_loop strptime fetch (cutoff_of now) 5
                (State 0 (last_page_of total_stars) 0 [])) as [k st'].
    cbn [snd requested current_page app] in Hreq.
    assert (F : fetched (finish (k, st')) = requested st')
      by (destruct k; reflexivity).
    rewrite F, Hreq. cbn [hd_error]. now rewrite first_page_arith.
  - intros Hlt Hm. rewrite (ceil_pages_off_multiple _ Hm).
    assert (total_stars / 100 < 400) by (apply Z.div_lt_upper_bound; lia).
    lia.
Qed.

End EstimatorFacts.

(* ================================================================== *)
(** ** The estimator on a served history *)

Section History.

Variable strptime : string -> option Z.
Variable cutoff : Z.

Lemma leading_le (ts : list Z) : (leading cutoff ts <= List.length ts)%nat.
Proof.
  induction ts as [|t ts IH]; cbn [leading List.length]; [lia|].
  destruct (t >? cutoff); lia.
Qed.

Lemma leading_app (a b : list Z) :
  leading cutoff (a ++ b)
  = if (leading cutoff a =? List.length a)%nat
    then (List.length a + leading cutoff b)%nat
    else leading cutoff a.
Proof.
  induction a as [|t a IH]; cbn [app leading List.length]; [reflexivity|].
  destruct (t >? cutoff); [|reflexivity].
  rewrite IH. cbn [Nat.eqb].
  destruct (leading cutoff a =? List.length a)%nat; reflexivity.
Qed.

(** On a history in strictly increasing order of time, the run that
    opens the newest-first reading is everything after the cutoff. *)
Lemma leading_rev_sorted (ts : list Z) :
  StronglySorted Z.lt ts ->
  leading cutoff (rev ts) = List.length (filter (fun t => t >? cutoff) ts).
Proof.
  induction 1 as [|t ts Hs IH Hall]; [reflexivity|].
  cbn [rev filter]. rewrite leading_app, IH. cbn [leading].
  rewrite length_rev.
  destruct (Z.gtb_spec t cutoff) as [Hin|Hout].
  - assert (E : filter (fun x => x >? cutoff) ts = ts).
    { apply forallb_filter_id. apply forallb_forall. intros x Hx.
      rewrite Forall_forall in Hall. specialize (Hall x Hx).
      apply Z.gtb_lt. lia. }
    rewrite E, Nat.eqb_refl. cbn [List.length]. lia.
  - destruct (Nat.eqb_spec (List.length (filter (fun x => x >? cutoff) ts))
                           (List.length ts)); lia.
Qed.

(** The [for] loop on events that all carry a readable instant: it
    counts the run that opens the list and returns at the first event
    at or before the cutoff. *)
Lemma for_stars_leading (stars : list json) :
  forall (ts : list Z) (c : Z),
    map (star_time strptime) stars = map Some ts ->
    for_stars strptime cutoff stars c
    = if (leading cutoff ts =? List.length ts)%nat
      then (Normal, c + Z.of_nat (List.length ts))
      else (Return (c + Z.of_nat (leading cutoff ts)),
            c + Z.of_nat (leading cutoff ts)).
Proof.
  induction stars as [|star stars IH]; intros [|t ts] c E;
    try discriminate E.
  - cbn [leading List.length Nat.eqb for_stars].
    change (Z.of_nat 0) with 0. now rewrite Z.add_0_r.
  - cbn [map] in E. injection E as Et E.
    cbn [for_stars leading List.length].
    unfold star_time in Et.
    destruct (Py.get star "starred_at") as [e|v]; [discriminate|].
    destruct (truthy v); [|discriminate]. cbn [negb].
    destruct (parse_starred_at strptime v) as [e|t']; [discriminate|].
    injection Et as ->.
    destruct (t >? cutoff).
    + rewrite (IH ts (c + 1) E). cbn [Nat.eqb].
      assert (A : forall x, c + 1 + Z.of_nat x = c + Z.of_nat (S x))
        by (intro; lia).
      rewrite !A.
      destruct (leading cutoff ts =? List.length ts)%nat; reflexivity.
    + cbn [Nat.eqb]. change (Z.of_nat 0) with 0. now rewrite Z.add_0_r.
Qed.

Lemma firstn_plus {A : Type} (a b : nat) :
  forall l : list A,
    firstn (a + b) l = firstn a l ++ firstn b (skipn a l).
Proof.
  induction a as [|a IH]; intros [|x l]; cbn [Nat.add firstn skipn app];
    try reflexivity.
  - now rewrite firstn_nil.
  - now rewrite IH.
Qed.

Lemma page_of_succ (hist : list json) (p : nat) :
  page_of hist (Z.of_nat (S p)) = firstn 100 (skipn (100 * p) hist).
Proof.
  unfold page_of, per_page. change (Z.to_nat 100) with 100%nat.
  replace (Z.to_nat (100 * (Z.of_nat (S p) - 1))) with (100 * p)%nat by lia.
  reflexivity.
Qed.

Section Served.

(** The history, oldest event first, and the instants its events
    carry. *)
Variable hist : list json.
Variable times : list Z.
Hypothesis stamped : map (star_time strptime) hist = map Some times.

Lemma times_length : List.length times = List.length hist.
Proof.
  rewrite <- (length_map Some times), <- stamped. apply length_map.
Qed.

(** The walk from page [p] with [f] pages of budget left: it counts the
    run after the cutoff that opens the newest-first reading of pages
    [1 .. p], as far as the [f] pages from [p] down reach. *)
Lemma walk_history (f : nat) :
  forall (p : nat) (c k : Z) (req : list Z),
    (p = 0 \/ 100 * (p - 1) < List.length hist)%nat ->
    Z.of_nat f = max_pages_to_check - k ->
    outcome (finish (while_loop strptime (serve hist) cutoff f
                                (State c (Z.of_nat p) k req)))
    = inr (c + Z.of_nat
                 (Nat.min (leading cutoff (rev (firstn (100 * p) times)))
                          (Nat.min (100 * p) (List.length hist)
                           - Nat.min (100 * (p - f)) (List.length hist)))).
Proof.
  induction f as [|f IH]; intros p c k req Hp Hf.
  - cbn [while_loop finish outcome count_7_days]. unfold ret.
    rewrite Nat.sub_0_r, Nat.sub_diag, Nat.min_0_r.
    change (Z.of_nat 0) with 0. now rewrite Z.add_0_r.
  - cbn [while_loop]. unfold loop_test. cbn [pages_checked current_page].
    replace (k <? max_pages_to_check) with true
      by (symmetry; apply Z.ltb_lt; lia).
    destruct p as [|p].
    + cbn [andb Z.of_nat Z.gtb Z.compare finish outcome count_7_days].
      unfold ret. rewrite Nat.mul_0_r. cbn [firstn rev leading Nat.min].
      change (Z.of_nat 0) with 0. now rewrite Z.add_0_r.
    + replace (Z.of_nat (S p) >? 0) with true
        by (symmetry; apply Z.gtb_lt; lia).
      cbn [andb].
      assert (Hlt : (100 * p < List.length hist)%nat) by lia.
      set (pg := firstn 100 (skipn (100 * p) hist)).
      set (tpg := firstn 100 (skipn (100 * p) times)).
      assert (Epg : map (star_time strptime) (rev pg) = map Some (rev tpg)).
      { subst pg tpg. rewrite !map_rev. f_equal.
        now rewrite <- !firstn_map, <- !skipn_map, stamped. }
      assert (Ltpg : List.length tpg = Nat.min 100 (List.length hist - 100 * p)).
      { subst tpg. now rewrite length_firstn, length_skipn, times_length. }
      assert (Lpg : List.length pg = List.length tpg).
      { subst pg. rewrite Ltpg. now rewrite length_firstn, length_skipn. }
      assert (Esplit : rev (firstn (100 * S p) times)
                       = rev tpg ++ rev (firstn (100 * p) times)).
      { rewrite Nat.mul_succ_r, firstn_plus, rev_app_distr. reflexivity. }
      unfold loop_body, try_body, serve.
      cbn [current_page count_7_days pages_checked requested ret
           status_code negb Z.eqb Pos.eqb].
      unfold response_json, ret. cbn [body].
      rewrite page_of_succ. fold pg.
      assert (Tpg : truthy (JArr pg) = true).
      { cbn [truthy]. destruct pg; [cbn [List.length] in Lpg; lia | reflexivity]. }
      rewrite Tpg. cbn [negb]. unfold reversed, iterate, Py.bind, ret.
      rewrite (for_stars_leading (rev pg) (rev tpg) c Epg).
      rewrite Esplit, leading_app.
      destruct (leading cutoff (rev tpg) =? List.length (rev tpg))%nat eqn:Q.
      * replace (Z.of_nat (S p) - 1) with (Z.of_nat p) by lia.
        rewrite (IH p _ (k + 1) _); [|lia|lia].
        f_equal. rewrite length_rev in *.
        replace (S p - S f)%nat with (p - f)%nat by lia.
        lia.
      * cbn [set_count finish outcome]. unfold ret. f_equal. f_equal. f_equal.
        apply Nat.eqb_neq in Q. pose proof (leading_le (rev tpg)) as Hle.
        rewrite length_rev in *. lia.
Qed.

End Served.

End History.

(** C2, as the code has it.  On a history of [total_stars] events in
    strictly increasing order of time (strictly descending as the walk
    reads it), served 100 to a page, with [total_stars] below 40000 and
    not a multiple of 100, the estimator returns the number of events
    strictly after the cutoff, an event at the cutoff instant not
    counted, capped by the events on the five pages it may read: the
    exact count when that is within this reach, the reach, an
    undercount, beyond. *)
Theorem C2_velocity_on_sorted_history :
  forall (strptime : string -> option Z) (now : Z)
         (hist : list json) (times : list Z),
    map (star_time strptime) hist = map Some times ->
    StronglySorted Z.lt times ->
    Z.of_nat (List.length hist) mod 100 <> 0 ->
    Z.of_nat (List.length hist) < 40000 ->
    let total_stars := Z.of_nat (List.length hist) in
    let exact := count_after (cutoff_of now) times in
    let result := outcome (get_star_velocity strptime now (serve hist)
                                             total_stars) in
    result = inr (Z.min exact (reach total_stars))
    /\ (exact <= reach total_stars -> result = inr exact)
    /\ (reach total_stars < exact ->
        result = inr (reach total_stars)).
Proof.
  intros strptime now hist times Hst Hsorted Hmod Hlt total_stars exact result.
  assert (Main : result = inr (Z.min exact (reach total_stars))).
  { subst result exact total_stars.
    set (n := List.length hist) in *.
    pose proof (Nat.div_mod_eq n 100) as Hn.
    pose proof (Nat.mod_upper_bound n 100 ltac:(lia)) as Hr.
    assert (Hq : Z.of_nat n / 100 = Z.of_nat (n / 100))
      by (now rewrite (Nat2Z.inj_div n 100)).
    assert (Hm : Z.of_nat n mod 100 = Z.of_nat (n mod 100))
      by (now rewrite (Nat2Z.inj_mod n 100)).
    rewrite Hm in Hmod.
    unfold get_star_velocity.
    replace (Z.of_nat n =? 0) with false by (symmetry; apply Z.eqb_neq; lia).
    rewrite first_page_arith, Hq.
    replace (Z.min (Z.of_nat (n / 100) + 1) 400)
      with (Z.of_nat (S (n / 100))) by lia.
    change (Z.to_nat max_pages_to_check) with 5%nat.
    rewrite (walk_history strptime (cutoff_of now) hist times Hst 5
                          (S (n / 100)) 0 0 []);
      [|right; lia|reflexivity].
    rewrite firstn_all2
      by (rewrite (times_length strptime hist times Hst); fold n; lia).
    rewrite (leading_rev_sorted _ _ Hsorted).
    unfold count_after, reach, per_page, max_pages_to_check.
    rewrite Hm. fold n.
    set (cnt := List.length (filter (fun t => t >? cutoff_of now) times)).
    f_equal. lia. }
  split; [exact Main|]. split; intro H; rewrite Main; f_equal; lia.
Qed.

(** The events a served history offers on the pages [p, p - 1, ...],
    [n] of them, all positive: those of rank above [100 (p - n)] up to
    [100 p]. *)
Lemma events_served_history (hist : list json) (n : nat) :
  forall p : nat,
    (n <= p)%nat ->
    events_served (serve hist) (countdown (Z.of_nat p) n)
    = Z.of_nat (Nat.min (100 * p) (List.length hist)
                - Nat.min (100 * (p - n)) (List.length hist)).
Proof.
  induction n as [|n IH]; intros p Hp.
  - unfold countdown, events_served. cbn [seq map fold_right]. lia.
  - destruct p as [|p]; [lia|].
    rewrite countdown_S.
    replace (Z.of_nat (S p) - 1) with (Z.of_nat p) by lia.
    unfold events_served in *. cbn [fold_right]. rewrite (IH p) by lia.
    assert (L : List.length (page_events (serve hist (Z.of_nat (S p))))
                = Nat.min 100 (List.length hist - 100 * p)).
    { unfold page_events, serve, ret. cbn [status_code body Z.eqb Pos.eqb].
      rewrite page_of_succ. unfold reversed, iterate, Py.bind, ret.
      destruct (truthy (JArr (firstn 100 (skipn (100 * p) hist)))) eqn:T.
      - now rewrite length_rev, length_firstn, length_skipn.
      - cbn [truthy] in T.
        destruct (firstn 100 (skipn (100 * p) hist)) eqn:E; [|discriminate].
        apply (f_equal (@List.length json)) in E.
        rewrite length_firstn, length_skipn in E. cbn [List.length] in *. lia. }
    rewrite L. replace (S p - S n)%nat with (p - n)%nat by lia. lia.
Qed.

(** C1, as the code has it.  The count returned is never negative and
    never above the number of events on the pages the call fetched;
    it stays within [total_stars] when the pages are those of a history
    of [total_stars] events, whatever the events are. *)
Theorem C1_velocity_bounds :
  forall (strptime : string -> option Z) (now : Z),
    (forall (fetch : Z -> raising response) (total_stars : Z),
        exists v,
          outcome (get_star_velocity strptime now fetch total_stars) = inr v
          /\ 0 <= v
             <= events_served fetch
                  (fetched (get_star_velocity strptime now fetch total_stars)))
    /\ (forall hist : list json,
          exists v,
            outcome (get_star_velocity strptime now (serve hist)
                                       (Z.of_nat (List.length hist))) = inr v
            /\ 0 <= v <= Z.of_nat (List.length hist)).
Proof.
  intros strptime now. split.
  - intros fetch total_stars.
    destruct (get_star_velocity_effect strptime now fetch total_stars)
      as (v & n & E & _ & _ & Hv).
    exists v. rewrite E. cbn [outcome fetched]. split; [reflexivity | exact Hv].
  - intro hist.
    destruct (get_star_velocity_effect strptime now (serve hist)
                (Z.of_nat (List.length hist)))
      as (v & n & E & _ & Hn & Hv).
    exists v. rewrite E. cbn [outcome]. split; [reflexivity|].
    rewrite first_page_arith in *.
    assert (0 <= Z.of_nat (List.length hist) / 100)
      by (apply Z.div_pos; lia).
    set (lp := Z.min (Z.of_nat (List.length hist) / 100 + 1) 400) in *.
    replace lp with (Z.of_nat (Z.to_nat lp)) in Hv by lia.
    rewrite events_served_history in Hv by lia.
    lia.
Qed.

(* ================================================================== *)
(** ** The sorted table: properties *)

Section Arrange.

Variable A : Type.
Variable before : A -> A -> bool.
Hypothesis before_total : forall x y, before x y = true \/ before y x = true.
Hypothesis before_trans :
  forall x y z, before x y = true -> before y z = true -> before x z = true.

Lemma place_permutes (x : A) (l : list A) :
  Permutation (x :: l) (place before x l).
Proof.
  induction l as [|y rest IH]; cbn [place]; [reflexivity|].
  destruct (before x y); [reflexivity|].
  rewrite perm_swap. now apply perm_skip.
Qed.

Lemma arrange_permutes (l : list A) : Permutation l (arrange before l).
Proof.
  induction l as [|x l IH]; cbn [arrange fold_right]; [reflexivity|].
  rewrite <- place_permutes. now apply perm_skip.
Qed.

Lemma place_in_order (x : A) (l : list A) :
  StronglySorted (fun a b => before a b = true) l ->
  StronglySorted (fun a b => before a b = true) (place before x l).
Proof.
  induction 1 as [|y rest Hs IH Hall]; cbn [place].
  - repeat constructor.
  - destruct (before x y) eqn:Hxy.
    + constructor; [now constructor|].
      constructor; [exact Hxy|].
      eapply Forall_impl; [|exact Hall].
      intros z Hyz. exact (before_trans _ _ _ Hxy Hyz).
    + constructor; [exact IH|].
      apply (Permutation_Forall (place_permutes x rest)).
      constructor; [|exact Hall].
      destruct (before_total x y) as [H|H]; [congruence | exact H].
Qed.

Lemma arrange_in_order (l : list A) :
  StronglySorted (fun a b => before a b = true) (arrange before l).
Proof.
  induction l as [|x l IH]; cbn [arrange fold_right]; [constructor|].
  now apply place_in_order.
Qed.

End Arrange.

Lemma comes_before_total (key : row -> Z) (ascending : bool) (prio : nat -> Z)
      (x y : nat * row) :
  comes_before key ascending prio x y = true
  \/ comes_before key ascending prio y x = true.
Proof.
  unfold comes_before. cbn zeta. rewrite (Z.eqb_sym (key (snd y))).
  destruct (Z.eqb_spec (key (snd x)) (key (snd y))) as [E|N].
  - destruct (Z.leb_spec (prio (fst x)) (prio (fst y)));
      [now left | right; apply Z.leb_le; lia].
  - destruct ascending;
      destruct (Z.ltb_spec (key (snd x)) (key (snd y)));
      destruct (Z.ltb_spec (key (snd y)) (key (snd x)));
      auto; lia.
Qed.

Lemma comes_before_trans (key : row -> Z) (ascending : bool) (prio : nat -> Z)
      (x y z : nat * row) :
  comes_before key ascending prio x y = true ->
  comes_before key ascending prio y z = true ->
  comes_before key ascending prio x z = true.
Proof.
  unfold comes_before. cbn zeta.
  destruct (Z.eqb_spec (key (snd x)) (key (snd y)));
    destruct (Z.eqb_spec (key (snd y)) (key (snd z)));
    destruct (Z.eqb_spec (key (snd x)) (key (snd z)));
    destruct ascending;
    rewrite ?Z.leb_le, ?Z.ltb_lt; lia.
Qed.

Lemma comes_before_key (key : row -> Z) (ascending : bool) (prio : nat -> Z)
      (x y : nat * row) :
  comes_before key ascending prio x y = true ->
  if ascending then key (snd x) <= key (snd y)
  else key (snd y) <= key (snd x).
Proof.
  unfold comes_before. cbn zeta.
  destruct (Z.eqb_spec (key (snd x)) (key (snd y)));
    destruct ascending; rewrite ?Z.leb_le, ?Z.ltb_lt; lia.
Qed.

Lemma positions_dropped (df : list row) :
  forall start : nat,
    map snd (combine (seq start (List.length df)) df) = df.
Proof.
  induction df as [|r df IH]; intro start; cbn [List.length seq combine map];
    [reflexivity|].
  now rewrite IH.
Qed.

(** [sort_values] returns the rows it was given, each as often. *)
Lemma sort_values_permutes (tie : list row -> nat -> Z) (key : row -> Z)
      (ascending : bool) (df : list row) :
  Permutation df (sort_values tie key ascending df).
Proof.
  unfold sort_values.
  rewrite <- (positions_dropped df 0) at 1.
  apply Permutation_map, arrange_permutes.
Qed.

(** [sort_values] returns them in the order of the key: no row comes
    before a row of smaller key when ascending, of larger key when
    descending. *)
Lemma sort_values_sorts (tie : list row -> nat -> Z) (key : row -> Z)
      (ascending : bool) (df : list row) :
  StronglySorted (fun a b => if ascending then key a <= key b
                             else key b <= key a)
                 (sort_values tie key ascending df).
Proof.
  unfold sort_values.
  pose proof (arrange_in_order _ _
                (comes_before_total key ascending (tie df))
                (comes_before_trans key ascending (tie df))
                (combine (seq 0 (List.length df)) df)) as S.
  induction S as [|x l S IH Hall]; cbn [map]; constructor; [exact IH|].
  apply Forall_map. eapply Forall_impl; [|exact Hall].
  intros y Hxy. exact (comes_before_key _ _ _ _ _ Hxy).
Qed.

(* ================================================================== *)
(** ** Search client and scan: properties *)

Section ScanFacts.

Variable strptime : string -> option Z.
Variable tie : list row -> nat -> Z.
Variable w : world.

Lemma fetch_repos_failed (topic : string) (limit : Z) :
  search_failed (search w topic limit) ->
  fetch_repos w topic limit = JArr [].
Proof.
  intro F. unfold fetch_repos, Py.bind.
  inversion F as [e He | code b Hcode He | He]; cbn [status_code].
  - reflexivity.
  - replace (code =? 200) with false by (symmetry; now apply Z.eqb_neq).
    reflexivity.
  - reflexivity.
Qed.

(** C7.  When the search request raises, answers with a status other
    than 200 or cannot be decoded, [fetch_repos] returns the empty list and
    the scan ends with no rows, without raising. *)
Theorem C7_search_failure_gives_empty :
  forall topic : string,
    search_failed (search w topic 30) ->
    fetch_repos w topic 30 = JArr []
    /\ run_scan strptime tie w topic = inr [].
Proof.
  intros topic F. pose proof (fetch_repos_failed topic 30 F) as E.
  split; [exact E|]. unfold run_scan. now rewrite E.
Qed.

Lemma scan_repo_summary (i : nat) (repo name login description html_url : json)
      (stars : Z) :
  summary_of repo name login description html_url stars ->
  exists v,
    outcome (get_star_velocity strptime (clock w i)
               (stargazers w i login name) stars) = inr v
    /\ scan_repo strptime w i repo
       = inr (Row name description (JNum stars) v (bucket_repo v stars)
                  html_url login).
Proof.
  intros (owner & Hn & Ho & Hl & Hs & Hd & Hu).
  destruct (get_star_velocity_effect strptime (clock w i)
              (stargazers w i login name) stars) as (v & n & E & _).
  exists v. split; [now rewrite E|].
  unfold scan_repo, Py.bind.
  rewrite Hn, Ho, Hl, Hs. cbn [as_int ret]. rewrite E. cbn [outcome ret].
  now rewrite Hd, Hu.
Qed.

Lemma scan_loop_summaries (items : list json) :
  forall (i : nat) (acc : list row),
    Forall is_summary items ->
    exists results,
      rows_of strptime w i items results
      /\ scan_loop strptime w i items acc = inr (acc ++ results).
Proof.
  induction items as [|repo items IH]; intros i acc Hall.
  - exists []. split; [constructor|]. cbn [scan_loop]. now rewrite app_nil_r.
  - inversion Hall as [|? ? Hrepo Hrest]; subst.
    destruct Hrepo as (name & login & description & html_url & stars & Hsum).
    destruct (scan_repo_summary i _ _ _ _ _ _ Hsum) as (v & Hv & Hrow).
    destruct (IH (S i)
                (acc ++ [Row name description (JNum stars) v
                             (bucket_repo v stars) html_url login]) Hrest)
      as (results & Hrows & Hloop).
    eexists. split; [econstructor; eassumption|].
    cbn [scan_loop]. unfold Py.bind. rewrite Hrow, Hloop.
    now rewrite <- app_assoc.
Qed.

Lemma rows_of_length (items : list json) :
  forall (i : nat) (results : list row),
    rows_of strptime w i items results ->
    List.length results = List.length items.
Proof.
  induction items as [|repo items IH]; intros i results H;
    inversion H; subst; cbn [List.length]; [reflexivity|].
  f_equal. eapply IH. eassumption.
Qed.

(** C8.  For a non-empty list of repository summaries returned by
    [fetch_repos] the scan returns one row per repository: the rows owed to
    the repositories in input order, each with the velocity the estimator
    returned for it (0 included) and the tier of that velocity, put by
    [sort_values] on the velocity column, descending, in an order where
    no row comes before one of higher velocity. *)
Theorem C8_one_row_per_repository :
  forall (topic : string) (items : list json),
    fetch_repos w topic 30 = JArr items ->
    items <> [] ->
    Forall is_summary items ->
    exists results rows,
      rows_of strptime w 0 items results
      /\ run_scan strptime tie w topic = inr rows
      /\ rows = sort_values tie Velocity false results
      /\ Permutation results rows
      /\ List.length rows = List.length items
      /\ StronglySorted velocity_ge rows.
Proof.
  intros topic items Hfetch Hne Hall.
  destruct (scan_loop_summaries items 0 [] Hall) as (results & Hrows & Hloop).
  exists results, (sort_values tie Velocity false results).
  pose proof (rows_of_length _ _ _ Hrows) as Hlen.
  pose proof (sort_values_permutes tie Velocity false results) as P.
  split; [exact Hrows|].
  split.
  - unfold run_scan, Py.bind. rewrite Hfetch. cbn [iterate ret].
    rewrite Hloop. cbn [app].
    destruct results as [|r results]; [|reflexivity].
    destruct items; [congruence | discriminate Hlen].
  - split; [reflexivity|]. split; [exact P|].
    split; [|exact (sort_values_sorts tie Velocity false results)].
    rewrite <- Hlen. symmetry. now apply Permutation_length.
Qed.

(** C10.  The window is seven days whatever the slider shows: the cutoff
    is [now] minus seven days, and two runs of the script whose widgets
    agree on everything but "Lookback (Days)" compute the same. *)
Theorem C10_window_fixed_at_seven_days :
  forall u1 u2 : ui,
    selected_preset u1 = selected_preset u2 ->
    text_input u1 = text_input u2 ->
    run_pressed u1 = run_pressed u2 ->
    script strptime tie w u1 = script strptime tie w u2
    /\ (forall now : Z,
          cutoff_of now = now - 7 * 24 * 60 * 60 * 1000000).
Proof.
  intros u1 u2 Hp Ht Hr. split.
  - unfold script, topic_of. now rewrite Hp, Ht, Hr.
  - intro now. unfold cutoff_of, Datetime.timedelta, Datetime.usec_per_day,
      Datetime.usec_per_second. lia.
Qed.

End ScanFacts.

(* ================================================================== *)
(** ** Worked examples *)

Import Sample.

Lemma increasing_sound (ts : list Z) :
  increasing ts = true -> StronglySorted Z.lt ts.
Proof.
  intro H. apply Sorted_StronglySorted; [exact Z.lt_trans|].
  induction ts as [|t rest IH]; [constructor|].
  cbn [increasing] in H. destruct rest as [|u rest].
  - repeat constructor.
  - apply andb_prop in H. destruct H as [Htu Hrest].
    constructor; [now apply IH|]. constructor. now apply Z.ltb_lt.
Qed.

Lemma same_instant_sound (a b : option Z) : same_instant a b = true -> a = b.
Proof.
  destruct a, b; cbn [same_instant]; try discriminate; [|reflexivity].
  intro H. apply Z.eqb_eq in H. now subst.
Qed.

Lemma busy_day_stamped :
  map (star_time Datetime.strptime_padded) busy_day = map Some busy_times.
Proof.
  unfold busy_day, busy_times. rewrite !map_map. apply map_ext_in.
  assert (H : forallb
                (fun sec =>
                   same_instant
                     (star_time Datetime.strptime_padded
                                (star_at (stamp_jan_10 sec)))
                     (Some (Datetime.datetime 2024 1 10 0 0 0
                            + sec * Datetime.usec_per_second)))
                (upfrom 0 busy_size) = true)
    by (vm_compute; reflexivity).
  rewrite forallb_forall in H.
  intros sec Hin. apply same_instant_sound. now apply H.
Qed.

(** Counterexample to C1 as stated: the search reported one star, the
    stargazers page lists two recent ones, and the estimate is 2. *)
Lemma C1_counterexample :
  0 <= 1
  /\ outcome (get_star_velocity Datetime.strptime_padded noon
                                (fun _ => ok two_recent) 1) = inr 2
  /\ ~ (0 <= 2 <= 1).
Proof. split; [lia|]. split; [vm_compute; reflexivity | lia]. Qed.

(** Counterexample to C2 as stated: 40150 events a second apart, the
    newest 50 in the window; the walk starts at page 400, whose newest
    event is the 40000th, already outside the window, and returns 0. *)
Lemma C2_counterexample :
  map (star_time Datetime.strptime_padded) busy_day = map Some busy_times
  /\ StronglySorted Z.lt busy_times
  /\ Z.of_nat (List.length busy_day) = 40150
  /\ count_after (cutoff_of busy_now) busy_times = 50
  /\ 50 <= 500
  /\ get_star_velocity Datetime.strptime_padded busy_now (serve busy_day) 40150
     = Call (inr 0) [400].
Proof.
  split; [exact busy_day_stamped|].
  split; [apply increasing_sound; vm_compute; reflexivity|].
  split; [vm_compute; reflexivity|].
  split; [vm_compute; reflexivity|].
  split; [lia | vm_compute; reflexivity].
Qed.

Lemma C2_velocity_on_sorted_history_witness :
  map (star_time Datetime.strptime_padded) short_history = map Some short_times
  /\ StronglySorted Z.lt short_times
  /\ outcome (get_star_velocity Datetime.strptime_padded noon
                                (serve short_history) 3) = inr 2.
Proof.
  assert (H1 : map (star_time Datetime.strptime_padded) short_history
               = map Some short_times) by reflexivity.
  assert (H2 : StronglySorted Z.lt short_times)
    by (repeat constructor; reflexivity).
  assert (H3 : Z.of_nat (List.length short_history) mod 100 <> 0)
    by (vm_compute; discriminate).
  assert (H4 : Z.of_nat (List.length short_history) < 40000)
    by (vm_compute; reflexivity).
  split; [exact H1|]. split; [exact H2|].
  exact (proj1 (C2_velocity_on_sorted_history
                  Datetime.strptime_padded noon short_history short_times
                  H1 H2 H3 H4)).
Defined.

(** Counterexample to C5 as stated: with 40150 stars the first page
    requested is 400, the ceiling, while the newest events are on page
    402. *)
Lemma C5_counterexample :
  1 <= 40150
  /\ hd_error (fetched (get_star_velocity Datetime.strptime_padded noon
                                          (fun _ => unavailable) 40150))
     = Some 400
  /\ ceil_pages 40150 = 402.
Proof. split; [lia|]. split; vm_compute; reflexivity. Qed.

Lemma C5_first_page_witness :
  1 <= 250
  /\ hd_error (fetched (get_star_velocity Datetime.strptime_padded noon
                                          (fun _ => ok two_recent) 250))
     = Some 3
  /\ ceil_pages 250 = 3.
Proof.
  assert (H : 1 <= 250) by lia.
  destruct (C5_first_page Datetime.strptime_padded noon
                          (fun _ => ok two_recent) 250 H) as [Hfirst Hceil].
  split; [exact H|]. split; [exact Hfirst|].
  symmetry. apply Hceil; [reflexivity | vm_compute; discriminate].
Defined.

(** The first page on a multiple of 100: with 100 stars, all gained in
    the window, the walk asks for page 2, which is empty, and the
    estimate is 0. *)
Example hundred_stars_estimated_zero :
  Z.of_nat (List.length hundred) = 100
  /\ ceil_pages 100 = 1
  /\ page_of hundred 2 = []
  /\ get_star_velocity Datetime.strptime_padded noon (serve hundred) 100
     = Call (inr 0) [2].
Proof. repeat split; vm_compute; reflexivity. Qed.

Lemma C7_search_failure_gives_empty_witness :
  search_failed (search search_down "rust" 30)
  /\ fetch_repos search_down "rust" 30 = JArr []
  /\ run_scan Datetime.strptime_padded by_position search_down "rust" = inr [].
Proof.
  assert (H : search_failed (search search_down "rust" 30))
    by (apply search_status; discriminate).
  split; [exact H|].
  exact (C7_search_failure_gives_empty Datetime.strptime_padded by_position
                                       search_down "rust" H).
Defined.

Lemma summary_is_summary (name login description html_url : json) (stars : Z) :
  is_summary (summary name login description html_url stars).
Proof.
  exists name, login, description, html_url, stars.
  exists (JObj [("login"%string, login)]). repeat split.
Qed.

Lemma C8_one_row_per_repository_witness :
  fetch_repos two_repos "rust" 30 = JArr [repo_a; repo_b]
  /\ exists results rows,
       rows_of Datetime.strptime_padded two_repos 0 [repo_a; repo_b] results
       /\ run_scan Datetime.strptime_padded by_position two_repos "rust"
          = inr rows
       /\ rows = sort_values by_position Velocity false results
       /\ Permutation results rows
       /\ List.length rows = 2%nat
       /\ StronglySorted velocity_ge rows.
Proof.
  assert (H1 : fetch_repos two_repos "rust" 30 = JArr [repo_a; repo_b])
    by reflexivity.
  assert (H2 : [repo_a; repo_b] <> []) by discriminate.
  assert (H3 : Forall is_summary [repo_a; repo_b])
    by (repeat constructor; apply summary_is_summary).
  split; [exact H1|].
  exact (C8_one_row_per_repository Datetime.strptime_padded by_position
           two_repos "rust" [repo_a; repo_b] H1 H2 H3).
Defined.

(** The run behind the witness: the repository with 100000 stars and
    unavailable pages is kept with velocity 0 and tier [BreakoutHuge], and
    comes after the one whose three pages hold two recent stars each. *)
Example two_repos_scanned :
  run_scan Datetime.strptime_padded by_position two_repos "rust"
  = inr [ Row (JStr "axum") JNull (JNum 250) 6 Early
              (JStr "https://github.com/tokio-rs/axum") (JStr "tokio-rs");
          Row (JStr "tokio") (JStr "runtime") (JNum 100000) 0 BreakoutHuge
              (JStr "https://github.com/tokio-rs/tokio") (JStr "tokio-rs") ].
Proof. vm_compute. reflexivity. Qed.

Lemma C9_event_without_timestamp_skipped_witness :
  no_timestamp (JObj [("user"%string, JStr "octocat")])
  /\ for_stars Datetime.strptime_padded 0
               [JObj [("user"%string, JStr "octocat")]] 3
     = (Normal, 3).
Proof.
  assert (H : no_timestamp (JObj [("user"%string, JStr "octocat")])).
  { exists [("user"%string, JStr "octocat")]. split; reflexivity. }
  split; [exact H|].
  exact (proj1 (C9_event_without_timestamp_skipped
                  Datetime.strptime_padded 0 _ H) [] 3).
Defined.

Lemma C10_window_fixed_at_seven_days_witness :
  script Datetime.strptime_padded by_position two_repos
         (Ui "rust" "machine-learning" 7 true)
  = script Datetime.strptime_padded by_position two_repos
           (Ui "rust" "machine-learning" 30 true).
Proof.
  exact (proj1 (C10_window_fixed_at_seven_days
                  Datetime.strptime_padded by_position two_repos
                  (Ui "rust" "machine-learning" 7 true)
                  (Ui "rust" "machine-learning" 30 true)
                  eq_refl eq_refl eq_refl)).
Defined.

(* ================================================================== *)
(** ** The velocity estimator: further properties *)

Section EstimatorMore.

Variable strptime : string -> option Z.

Lemma countdown_in (p : Z) (n : nat) (x : Z) :
  In x (countdown p n) <-> p - Z.of_nat n < x <= p.
Proof.
  unfold countdown. rewrite in_map_iff. split.
  - intros (i & <- & Hi). apply in_seq in Hi. lia.
  - intro H. exists (Z.to_nat (p - x)). split; [lia|].
    apply in_seq. lia.
Qed.

Lemma countdown_NoDup (p : Z) (n : nat) : NoDup (countdown p n).
Proof.
  revert p. induction n as [|n IH]; intro p.
  - constructor.
  - rewrite countdown_S. constructor; [|apply IH].
    rewrite countdown_in. lia.
Qed.

(** X1.  The pages one call requests are [last_page], [last_page - 1],
    ... in this order, no page twice, each between 1 and 400 and within
    four of the first. *)
Theorem requested_pages_count_down :
  forall (now : Z) (fetch : Z -> raising response) (total_stars : Z),
    let pages := fetched (get_star_velocity strptime now fetch total_stars) in
    pages = countdown (last_page_of total_stars) (List.length pages)
    /\ NoDup pages
    /\ (forall p, In p pages ->
          1 <= p <= 400
          /\ last_page_of total_stars - 4 <= p <= last_page_of total_stars).
Proof.
  intros now fetch total_stars pages. subst pages.
  destruct (get_star_velocity_effect strptime now fetch total_stars)
    as (v & n & E & Hn & Hpos & _).
  rewrite E. cbn [fetched].
  assert (L : List.length (countdown (last_page_of total_stars) n) = n)
    by (unfold countdown; now rewrite length_map, length_seq).
  rewrite L. split; [reflexivity|]. split; [apply countdown_NoDup|].
  intros p Hp. apply countdown_in in Hp.
  pose proof (first_page_arith total_stars). lia.
Qed.

(** X2.  A negative star count sends no request and gives 0: the first
    page computed is not positive and the loop is not entered. *)
Theorem negative_total_stars_no_request :
  forall (now : Z) (fetch : Z -> raising response) (total_stars : Z),
    total_stars < 0 ->
    get_star_velocity strptime now fetch total_stars = Call (ret 0) [].
Proof.
  intros now fetch total_stars Hneg. unfold get_star_velocity.
  replace (total_stars =? 0) with false by (symmetry; apply Z.eqb_neq; lia).
  assert (Hq : total_stars / 100 < 0) by (apply Z.div_lt_upper_bound; lia).
  change (Z.to_nat max_pages_to_check) with 5%nat. cbn [while_loop].
  unfold loop_test. cbn [pages_checked current_page].
  rewrite first_page_arith.
  replace (Z.min (total_stars / 100 + 1) 400 >? 0) with false
    by (symmetry; rewrite Z.gtb_ltb; apply Z.ltb_ge; lia).
  rewrite andb_false_r. reflexivity.
Qed.

Lemma try_body_ext (f g : Z -> raising response) (cutoff : Z) (st : state) :
  f (current_page st) = g (current_page st) ->
  try_body strptime f cutoff st = try_body strptime g cutoff st.
Proof. intro E. unfold try_body. cbn [current_page]. now rewrite E. Qed.

Lemma while_loop_ext (f g : Z -> raising response) (cutoff : Z) (fuel : nat) :
  forall st,
    (forall p, 1 <= p -> current_page st - Z.of_nat fuel < p <= current_page st ->
               f p = g p) ->
    while_loop strptime f cutoff fuel st = while_loop strptime g cutoff fuel st.
Proof.
  induction fuel as [|fuel IH]; intros st H; [reflexivity|].
  cbn [while_loop]. destruct (loop_test st) eqn:T; [|reflexivity].
  unfold loop_test in T. apply andb_prop in T. destruct T as [_ T].
  apply Z.gtb_lt in T.
  unfold loop_body. rewrite (try_body_ext f g cutoff st) by (apply H; lia).
  destruct (try_body strptime g cutoff st) as [k st'] eqn:B.
  apply try_body_effect in B. destruct B as (_ & _ & Hnorm & _).
  destruct k; try reflexivity.
  destruct (Hnorm eq_refl) as [Hp _].
  apply IH. intros p Hp1 Hp2. apply H; lia.
Qed.

(** X3.  A call depends on the network only through the pages
    [last_page - 4 .. last_page] that are positive: two networks that
    answer alike on these give the same result and the same requests. *)
Theorem result_depends_on_five_pages :
  forall (now : Z) (f g : Z -> raising response) (total_stars : Z),
    (forall p, 1 <= p ->
               last_page_of total_stars - 4 <= p <= last_page_of total_stars ->
               f p = g p) ->
    get_star_velocity strptime now f total_stars
    = get_star_velocity strptime now g total_stars.
Proof.
  intros now f g total_stars H. unfold get_star_velocity.
  destruct (total_stars =? 0); [reflexivity|].
  f_equal. apply while_loop_ext. cbn [current_page].
  change (Z.to_nat max_pages_to_check) with 5%nat.
  intros p Hp1 Hp2. apply H; lia.
Qed.

Lemma events_served_le (fetch : Z -> raising response) (bound : Z)
      (pages : list Z) :
  (forall p, Z.of_nat (List.length (page_events (fetch p))) <= bound) ->
  events_served fetch pages <= bound * Z.of_nat (List.length pages).
Proof.
  intro H. induction pages as [|p pages IH].
  - unfold events_served. cbn [fold_right List.length]. lia.
  - unfold events_served in *. cbn [fold_right List.length].
    specialize (H p). lia.
Qed.

(** X4.  When no response offers more than 100 events to the scan (the
    server honours [per_page]), the estimate is at most 100 times the
    number of pages requested, hence at most 500. *)
Theorem velocity_at_most_500 :
  forall (now : Z) (fetch : Z -> raising response) (total_stars : Z),
    (forall p, (List.length (page_events (fetch p)) <= 100)%nat) ->
    exists v,
      outcome (get_star_velocity strptime now fetch total_stars) = inr v
      /\ v <= 100 * Z.of_nat (List.length
                 (fetched (get_star_velocity strptime now fetch total_stars)))
      /\ v <= 500.
Proof.
  intros now fetch total_stars H.
  destruct (get_star_velocity_effect strptime now fetch total_stars)
    as (v & n & E & Hn & _ & Hv).
  exists v. rewrite E. cbn [outcome fetched]. split; [reflexivity|].
  pose proof (events_served_le fetch 100
                (countdown (last_page_of total_stars) n)
                (fun p => ltac:(specialize (H p); lia))) as B.
  assert (L : List.length (countdown (last_page_of total_stars) n) = n)
    by (unfold countdown; now rewrite length_map, length_seq).
  rewrite L in *. lia.
Qed.

Lemma for_stars_cutoff_mono (early late : Z) (stars : list json) :
  early <= late ->
  forall c k1 c1 k2 c2,
    for_stars strptime early stars c = (k1, c1) ->
    for_stars strptime late stars c = (k2, c2) ->
    (k2 = k1 /\ c2 = c1) \/ (k2 = Return c2 /\ c <= c2 <= c1).
Proof.
  intro Hle. induction stars as [|star rest IH]; intros c k1 c1 k2 c2 H1 H2;
    cbn [for_stars] in H1, H2.
  - left. split; congruence.
  - destruct (Py.get star "starred_at") as [e|v]; [left; split; congruence|].
    destruct (negb (truthy v)); [exact (IH _ _ _ _ _ H1 H2)|].
    destruct (parse_starred_at strptime v) as [e|t];
      [left; split; congruence|].
    destruct (Z.gtb_spec t late) as [Hin|Hout].
    + replace (t >? early) with true in H1
        by (symmetry; apply Z.gtb_lt; lia).
      destruct (IH _ _ _ _ _ H1 H2) as [?|[? ?]]; [now left | right].
      split; [assumption | lia].
    + right. inversion H2; subst. split; [reflexivity|].
      destruct (t >? early).
      * apply for_stars_bounds in H1. lia.
      * inversion H1; subst. lia.
Qed.

Lemma try_body_cutoff_mono (fetch : Z -> raising response) (early late : Z)
      (st : state) :
  early <= late ->
  forall k1 st1 k2 st2,
    try_body strptime fetch early st = (k1, st1) ->
    try_body strptime fetch late st = (k2, st2) ->
    (k2 = k1 /\ st2 = st1)
    \/ (k2 = Return (count_7_days st2)
        /\ requested st2 = requested st1
        /\ count_7_days st2 <= count_7_days st1).
Proof.
  intros Hle k1 st1 k2 st2 H1 H2. unfold try_body in H1, H2.
  cbn [current_page count_7_days pages_checked requested] in H1, H2.
  destruct (fetch (current_page st)) as [e|r]; [left; split; congruence|].
  destruct (negb (status_code r =? 200)); [left; split; congruence|].
  destruct (response_json r) as [e|data]; [left; split; congruence|].
  destruct (negb (truthy data)); [left; split; congruence|].
  destruct (reversed data) as [e|stars]; [left; split; congruence|].
  destruct (for_stars strptime early stars (count_7_days st))
    as [j1 c1] eqn:F1.
  destruct (for_stars strptime late stars (count_7_days st))
    as [j2 c2] eqn:F2.
  destruct (for_stars_cutoff_mono early late stars Hle _ _ _ _ _ F1 F2)
    as [[-> ->]|[-> Hc]].
  - left. split; congruence.
  - right. inversion H2; subst. cbn [set_count count_7_days requested].
    split; [reflexivity|].
    destruct j1; inversion H1; subst;
      cbn [set_count count_7_days requested]; split; (reflexivity || lia).
Qed.

Lemma while_loop_cutoff_mono (fetch : Z -> raising response) (early late : Z)
      (fuel : nat) :
  early <= late ->
  forall st k1 st1 k2 st2,
    while_loop strptime fetch early fuel st = (k1, st1) ->
    while_loop strptime fetch late fuel st = (k2, st2) ->
    count_7_days st2 <= count_7_days st1
    /\ exists more, requested st1 = requested st2 ++ more.
Proof.
  intro Hle. induction fuel as [|fuel IH]; intros st k1 st1 k2 st2 H1 H2;
    cbn [while_loop] in H1, H2.
  - inversion H1; inversion H2; subst. split; [lia|].
    exists []. now rewrite app_nil_r.
  - destruct (loop_test st).
    2:{ inversion H1; inversion H2; subst. split; [lia|].
        exists []. now rewrite app_nil_r. }
    unfold loop_body in H1, H2.
    destruct (try_body strptime fetch early st) as [j1 s1] eqn:B1.
    destruct (try_body strptime fetch late st) as [j2 s2] eqn:B2.
    destruct (try_body_cutoff_mono fetch early late st Hle _ _ _ _ B1 B2)
      as [[-> ->]|(-> & Hreq & Hcnt)].
    + destruct j1; try (inversion H1; inversion H2; subst; split; [lia|];
                        exists []; now rewrite app_nil_r).
      exact (IH _ _ _ _ _ H1 H2).
    + inversion H2; subst. rewrite Hreq.
      destruct j1.
      * apply while_loop_effect in H1.
        destruct H1 as (n & Hr & _ & _ & _ & Hc & _).
        split; [lia|]. eexists. exact Hr.
      * inversion H1; subst. split; [lia|]. exists []. now rewrite app_nil_r.
      * inversion H1; subst. split; [lia|]. exists []. now rewrite app_nil_r.
      * inversion H1; subst. split; [lia|]. exists []. now rewrite app_nil_r.
Qed.

(** X5.  On the same pages, a later clock never raises the estimate:
    what is counted with the later cutoff is counted with the earlier
    one, and the later call stops no later, its requests opening those
    of the earlier call. *)
Theorem later_clock_never_counts_more :
  forall (fetch : Z -> raising response) (total_stars earlier later : Z),
    earlier <= later ->
    exists v_earlier v_later more,
      outcome (get_star_velocity strptime earlier fetch total_stars)
      = inr v_earlier
      /\ outcome (get_star_velocity strptime later fetch total_stars)
         = inr v_later
      /\ v_later <= v_earlier
      /\ fetched (get_star_velocity strptime earlier fetch total_stars)
         = fetched (get_star_velocity strptime later fetch total_stars)
           ++ more.
Proof.
  intros fetch total_stars earlier later Hle. unfold get_star_velocity.
  destruct (total_stars =? 0).
  { exists 0, 0, []. cbn [outcome fetched app]. repeat split; lia. }
  destruct (while_loop strptime fetch (cutoff_of earlier)
              (Z.to_nat max_pages_to_check)
              (State 0 (last_page_of total_stars) 0 [])) as [k1 s1] eqn:W1.
  destruct (while_loop strptime fetch (cutoff_of later)
              (Z.to_nat max_pages_to_check)
              (State 0 (last_page_of total_stars) 0 [])) as [k2 s2] eqn:W2.
  assert (Hc : cutoff_of earlier <= cutoff_of later)
    by (unfold cutoff_of; lia).
  destruct (while_loop_cutoff_mono fetch _ _ _ Hc _ _ _ _ _ W1 W2)
    as (Hcnt & more & Hreq).
  apply while_loop_effect in W1. destruct W1 as (_ & _ & _ & _ & _ & _ & K1).
  apply while_loop_effect in W2. destruct W2 as (_ & _ & _ & _ & _ & _ & K2).
  exists (count_7_days s1), (count_7_days s2), more.
  destruct K1 as [-> | ->], K2 as [-> | ->]; cbn [finish outcome fetched];
    repeat split; auto.
Qed.

Lemma for_stars_recent_prefix (cutoff : Z) (newer : list json) :
  forall (times : list Z) (rest : list json) (c : Z),
    map (star_time strptime) newer = map Some times ->
    Forall (fun t => cutoff < t) times ->
    for_stars strptime cutoff (newer ++ rest) c
    = for_stars strptime cutoff rest (c + Z.of_nat (List.length newer)).
Proof.
  induction newer as [|star newer IH]; intros [|t times] rest c E Hall;
    try discriminate E.
  - cbn [app List.length]. change (Z.of_nat 0) with 0. now rewrite Z.add_0_r.
  - cbn [map] in E. injection E as Et E. inversion Hall; subst.
    cbn [app for_stars]. unfold star_time in Et.
    destruct (Py.get star "starred_at") as [e|v]; [discriminate|].
    destruct (truthy v); [|discriminate]. cbn [negb].
    destruct (parse_starred_at strptime v) as [e|t']; [discriminate|].
    injection Et as ->.
    replace (t >? cutoff) with true by (symmetry; apply Z.gtb_lt; lia).
    rewrite (IH times rest (c + 1) E) by assumption.
    f_equal. cbn [List.length]. lia.
Qed.

(** X6.  The first event at or before the cutoff ends the call: with the
    events of the page, newest first, being [newer] (all after the
    cutoff), then [old], then [older], the call returns the count so far
    plus the number of [newer], whatever [older] holds, and requests no
    further page. *)
Theorem first_old_event_ends_the_call :
  forall (fetch : Z -> raising response) (cutoff : Z) (fuel : nat)
         (st : state) (events newer older : list json) (old : json)
         (times : list Z) (t_old : Z),
    loop_test st = true ->
    fetch (current_page st) = inr (Response 200 (Some (JArr events))) ->
    rev events = newer ++ old :: older ->
    map (star_time strptime) newer = map Some times ->
    Forall (fun t => cutoff < t) times ->
    star_time strptime old = Some t_old ->
    t_old <= cutoff ->
    finish (while_loop strptime fetch cutoff (S fuel) st)
    = Call (ret (count_7_days st + Z.of_nat (List.length newer)))
           (requested st ++ [current_page st]).
Proof.
  intros fetch cutoff fuel st events newer older old times t_old
         T F Hrev Hnew Hall Hold Hle.
  assert (Hne : events <> []).
  { intro E. subst events. cbn [rev] in Hrev. now destruct newer. }
  set (c := count_7_days st + Z.of_nat (List.length newer)).
  apply (while_loop_stops strptime fetch cutoff fuel st
           (set_count (logged st) c) (Return c) T); [|discriminate].
  unfold try_body, logged, set_count.
  cbn [current_page count_7_days pages_checked requested].
  rewrite F. cbn [status_code negb Z.eqb Pos.eqb].
  unfold response_json, ret. cbn [body truthy].
  destruct events as [|x events]; [congruence|]. cbn [negb].
  unfold reversed, iterate, Py.bind, ret. rewrite Hrev.
  rewrite (for_stars_recent_prefix cutoff newer times _ _ Hnew Hall).
  fold c. cbn [for_stars]. unfold star_time in Hold.
  destruct (Py.get old "starred_at") as [e|v]; [discriminate|].
  destruct (truthy v); [|discriminate]. cbn [negb].
  destruct (parse_starred_at strptime v) as [e|t']; [discriminate|].
  injection Hold as ->.
  replace (t_old >? cutoff) with false
    by (symmetry; rewrite Z.gtb_ltb; apply Z.ltb_ge; lia).
  reflexivity.
Qed.

End EstimatorMore.

(* ================================================================== *)
(** ** Scan and dashboard: further properties *)

Section ScanMore.

Variable strptime : string -> option Z.
Variable tie : list row -> nat -> Z.
Variable w : world.

Lemma try_body_failed (fetch : Z -> raising response) (cutoff : Z)
      (st : state) :
  page_failed (fetch (current_page st)) ->
  exists k, try_body strptime fetch cutoff st = (k, logged st) /\ k <> Normal.
Proof.
  intro F. unfold try_body, logged.
  cbn [current_page count_7_days pages_checked requested].
  inversion F as [e He | code b Hcode He | He | data Hd He].
  - exists (Raise e). split; [reflexivity | discriminate].
  - exists Break. cbn [status_code].
    replace (code =? 200) with false by (symmetry; now apply Z.eqb_neq).
    split; [reflexivity | discriminate].
  - exists (Raise JSONDecodeError). split; [reflexivity | discriminate].
  - exists Break. cbn [status_code negb Z.eqb Pos.eqb].
    unfold response_json, ret. cbn [body]. rewrite Hd.
    split; [reflexivity | discriminate].
Qed.

Lemma first_page_failed (now : Z) (fetch : Z -> raising response)
      (total_stars : Z) :
  1 <= total_stars ->
  page_failed (fetch (last_page_of total_stars)) ->
  get_star_velocity strptime now fetch total_stars
  = Call (ret 0) [last_page_of total_stars].
Proof.
  intros Hpos F. unfold get_star_velocity.
  replace (total_stars =? 0) with false by (symmetry; apply Z.eqb_neq; lia).
  assert (Hdiv : 0 <= total_stars / 100) by (apply Z.div_pos; lia).
  set (st := State 0 (last_page_of total_stars) 0 []).
  assert (T : loop_test st = true).
  { unfold loop_test, st. cbn [pages_checked current_page].
    rewrite first_page_arith. apply andb_true_intro. split; [reflexivity|].
    apply Z.gtb_lt. lia. }
  destruct (try_body_failed fetch (cutoff_of now) st F) as (k & B & Hk).
  change (Z.to_nat max_pages_to_check) with 5%nat.
  now rewrite (while_loop_stops strptime fetch (cutoff_of now) 4 st
                 (logged st) k T B Hk).
Qed.

(** X7.  A repository whose first stargazers page cannot be fetched still
    gets its row, with velocity 0; the tier is then "Breakout (Huge)"
    above 40000 stars and "Early" otherwise. *)
Theorem unreachable_repository_row :
  forall (i : nat) (repo name login description html_url : json) (stars : Z),
    summary_of repo name login description html_url stars ->
    1 <= stars ->
    page_failed (stargazers w i login name (last_page_of stars)) ->
    scan_repo strptime w i repo
    = inr (Row name description (JNum stars) 0
               (if stars >? 40000 then BreakoutHuge else Early)
               html_url login).
Proof.
  intros i repo name login description html_url stars
         (owner & Hn & Ho & Hl & Hs & Hd & Hu) Hpos F.
  unfold scan_repo, Py.bind.
  rewrite Hn, Ho, Hl, Hs. cbn [as_int ret].
  rewrite (first_page_failed (clock w i) _ stars Hpos F).
  cbn [outcome ret]. rewrite Hd, Hu. unfold ret, bucket_repo.
  cbn [Z.eqb]. rewrite andb_true_r.
  destruct (stars >? 40000); reflexivity.
Qed.

Lemma scan_loop_raises (good : list json) :
  forall (i : nat) (acc : list row) (bad : json) (rest : list json) (e : exn),
    Forall is_summary good ->
    scan_repo strptime w (i + List.length good) bad = inl e ->
    scan_loop strptime w i (good ++ bad :: rest) acc = inl e.
Proof.
  induction good as [|repo good IH]; intros i acc bad rest e Hall Hbad.
  - cbn [List.length app scan_loop] in *. rewrite Nat.add_0_r in Hbad.
    unfold Py.bind. now rewrite Hbad.
  - inversion Hall as [|? ? Hrepo Hgood]; subst.
    destruct Hrepo as (name & login & description & html_url & stars & Hsum).
    destruct (scan_repo_summary strptime w i _ _ _ _ _ _ Hsum)
      as (v & _ & Hrow).
    cbn [app scan_loop]. unfold Py.bind. rewrite Hrow.
    apply IH; [assumption|].
    cbn [List.length] in Hbad.
    now replace (S i + List.length good)%nat
      with (i + S (List.length good))%nat by lia.
Qed.

(** X8.  One item that is not an object, or has no ["name"], makes the
    whole scan raise ([TypeError], [KeyError]): nothing catches it, and
    the rows already computed for the repositories before it are lost. *)
Theorem malformed_item_aborts_scan :
  forall (topic : string) (good rest : list json) (bad : json) (e : exn),
    fetch_repos w topic 30 = JArr (good ++ bad :: rest) ->
    Forall is_summary good ->
    subscript bad "name" = inl e ->
    run_scan strptime tie w topic = inl e.
Proof.
  intros topic good rest bad e Hfetch Hall Hbad.
  unfold run_scan, Py.bind. rewrite Hfetch. cbn [iterate ret].
  rewrite (scan_loop_raises good 0 [] bad rest e Hall); [reflexivity|].
  unfold scan_repo, Py.bind. now rewrite Hbad.
Qed.

(** X9.  A 200 response whose body is not an object, or is an object
    without ["items"], reads as no repositories: [fetch_repos] returns the
    empty list and the scan ends with no rows. *)
Theorem response_without_items_is_empty :
  forall (topic : string) (data : json),
    search w topic 30 = inr (Response 200 (Some data)) ->
    (forall fields, data = JObj fields -> lookup "items" fields = None) ->
    fetch_repos w topic 30 = JArr []
    /\ run_scan strptime tie w topic = inr [].
Proof.
  intros topic data Hs Hno.
  assert (E : fetch_repos w topic 30 = JArr []).
  { unfold fetch_repos, Py.bind. rewrite Hs.
    cbn [status_code negb Z.eqb Pos.eqb]. unfold response_json, ret.
    cbn [body]. unfold get_default.
    destruct data; try reflexivity.
    now rewrite (Hno fields eq_refl). }
  split; [exact E|]. unfold run_scan. now rewrite E.
Qed.

(** X10.  A 200 response whose ["items"] is [null], a boolean or a
    number is returned as it is by [fetch_repos], and the scan raises
    [TypeError] on it. *)
Theorem items_not_iterable_raises :
  forall (topic : string) (fields : list (string * json)) (items : json),
    search w topic 30 = inr (Response 200 (Some (JObj fields))) ->
    lookup "items" fields = Some items ->
    items = JNull \/ (exists b, items = JBool b) \/ (exists n, items = JNum n) ->
    fetch_repos w topic 30 = items
    /\ run_scan strptime tie w topic = inl TypeError.
Proof.
  intros topic fields items Hs Hl Hkind.
  assert (E : fetch_repos w topic 30 = items).
  { unfold fetch_repos, Py.bind. rewrite Hs.
    cbn [status_code negb Z.eqb Pos.eqb]. unfold response_json, ret.
    cbn [body]. unfold get_default. now rewrite Hl. }
  split; [exact E|]. unfold run_scan, Py.bind. rewrite E.
  destruct Hkind as [-> | [[b ->] | [n ->]]]; reflexivity.
Qed.

(** X11.  "Breakout Signals" counts the rows of tier "Breakout" and
    those of tier "Breakout (Huge)": the pattern occurs in both labels
    and in no other.  For a row classified by [bucket_repo] that is a
    velocity above 50, or a velocity of 0 with more than 40000 stars. *)
Theorem breakout_signals_include_huge :
  (forall t : tier,
      contains "Breakout" (label t)
      = match t with
        | BreakoutHuge | Breakout => true
        | Growing | Early => false
        end)
  /\ (forall velocity stars : Z,
        contains "Breakout" (label (bucket_repo velocity stars))
        = (velocity >? 50) || ((stars >? 40000) && (velocity =? 0)))
  /\ (forall df : list row,
        breakout_count df
        = List.length
            (filter (fun r => match Bucket r with
                              | BreakoutHuge | Breakout => true
                              | Growing | Early => false
                              end) df)).
Proof.
  assert (L : forall t : tier,
             contains "Breakout" (label t)
             = match t with
               | BreakoutHuge | Breakout => true
               | Growing | Early => false
               end)
    by (intros []; vm_compute; reflexivity).
  split; [exact L|]. split.
  - intros velocity stars. rewrite L. unfold bucket_repo.
    destruct ((stars >? 40000) && (velocity =? 0)) eqn:H;
      [now rewrite orb_true_r|].
    rewrite orb_false_r.
    destruct (velocity >? 50); [reflexivity|].
    destruct (velocity >? 10); reflexivity.
  - intro df. unfold breakout_count. f_equal.
    apply filter_ext. intro r. apply L.
Qed.

(** The sorted table, taken by what it is: the rows given, in descending
    order of velocity.  [sort_values tie Velocity false] is such a table
    for every [tie] ([sort_values_permutes], [sort_values_sorts]). *)
Variable sorted_table : list row -> list row.
Hypothesis sorted_table_permutes :
  forall l, Permutation l (sorted_table l).
Hypothesis sorted_table_sorts :
  forall l, StronglySorted velocity_ge (sorted_table l).

(** X12.  On the sorted table of a non-empty scan "Top Mover" is
    defined, and is the name of a scanned repository whose velocity no
    other exceeds. *)
Theorem top_mover_has_maximal_velocity :
  forall results : list row,
    results <> [] ->
    exists r,
      top_repo (sorted_table results) = Some (Name r)
      /\ In r results
      /\ (forall r', In r' results -> Velocity r' <= Velocity r).
Proof.
  intros results Hne.
  pose proof (sorted_table_permutes results) as P.
  pose proof (sorted_table_sorts results) as S.
  destruct (sorted_table results) as [|r df] eqn:E.
  - apply Permutation_sym, Permutation_nil in P. contradiction.
  - exists r. split; [reflexivity|]. split.
    + eapply Permutation_in; [apply Permutation_sym; exact P | now left].
    + intros r' Hin. apply (Permutation_in _ P) in Hin.
      inversion S as [|? ? _ Hall]; subst.
      destruct Hin as [<- | Hin]; [lia|].
      rewrite Forall_forall in Hall. exact (Hall r' Hin).
Qed.

Lemma in_firstn_in {A : Type} (n : nat) (l : list A) (x : A) :
  In x (firstn n l) -> In x l.
Proof.
  intro H. rewrite <- (firstn_skipn n l). apply in_or_app. now left.
Qed.

Lemma in_skipn_in {A : Type} (n : nat) (l : list A) (x : A) :
  In x (skipn n l) -> In x l.
Proof.
  intro H. rewrite <- (firstn_skipn n l). apply in_or_app. now right.
Qed.

Lemma sorted_split (df : list row) (n : nat) :
  StronglySorted velocity_ge df ->
  forall a b, In a (firstn n df) -> In b (skipn n df) ->
              Velocity b <= Velocity a.
Proof.
  intro S. revert n. induction S as [|r df S IH Hall]; intros n a b Ha Hb.
  - rewrite firstn_nil in Ha. contradiction.
  - destruct n as [|n]; [contradiction|].
    cbn [firstn skipn] in Ha, Hb. destruct Ha as [<- | Ha].
    + rewrite Forall_forall in Hall.
      apply Hall. eapply in_skipn_in; eassumption.
    + eapply IH; eassumption.
Qed.

(** X13.  The "Velocity Leaders" chart shows ten rows of the scan, all of
    them when there are fewer, and no row left out has a higher velocity
    than a row shown. *)
Theorem velocity_leaders_are_the_top :
  forall results : list row,
    List.length (top_10 (sorted_table results))
    = Nat.min 10 (List.length results)
    /\ (forall a, In a (top_10 (sorted_table results)) -> In a results)
    /\ (forall a b,
          In a (top_10 (sorted_table results)) ->
          In b (skipn 10 (sorted_table results)) ->
          Velocity b <= Velocity a).
Proof.
  intro results.
  pose proof (sorted_table_permutes results) as P.
  pose proof (sorted_table_sorts results) as S.
  unfold top_10. split; [|split].
  - rewrite length_firstn. now rewrite (Permutation_length P).
  - intros a Ha. eapply Permutation_in; [apply Permutation_sym; exact P|].
    eapply in_firstn_in; eassumption.
  - intros a b. now apply sorted_split.
Qed.

End ScanMore.

(* ================================================================== *)
(** ** The first page: edge cases *)

Section FirstPage.

Variable strptime : string -> option Z.

(** X14.  A repository with 1 to 99 stars costs exactly one request, for
    page 1. *)
Theorem small_repository_one_request :
  forall (now : Z) (fetch : Z -> raising response) (total_stars : Z),
    1 <= total_stars < 100 ->
    fetched (get_star_velocity strptime now fetch total_stars) = [1].
Proof.
  intros now fetch total_stars H.
  assert (Hq : total_stars / 100 = 0) by (apply Z.div_small; lia).
  assert (Hlp : last_page_of total_stars = 1)
    by (rewrite first_page_arith, Hq; reflexivity).
  unfold get_star_velocity.
  replace (total_stars =? 0) with false by (symmetry; apply Z.eqb_neq; lia).
  rewrite Hlp. change (Z.to_nat max_pages_to_check) with 5%nat.
  assert (T : loop_test (State 0 1 0 []) = true) by reflexivity.
  destruct (while_loop_first strptime fetch (cutoff_of now) 4 _ T)
    as (rest & Hreq).
  destruct (while_loop strptime fetch (cutoff_of now) 5 (State 0 1 0 []))
    as [k st'] eqn:W.
  cbn [snd requested current_page app] in Hreq.
  apply while_loop_effect in W.
  destruct W as (n & Hcd & _ & _ & Hn & _).
  cbn [requested current_page app] in Hcd, Hn.
  assert (F : fetched (finish (k, st')) = requested st')
    by (destruct k; reflexivity).
  rewrite F, Hcd.
  destruct n as [|[|n]]; [| reflexivity | lia].
  rewrite Hcd in Hreq. discriminate.
Qed.

(** X15.  On a history of exactly [total_stars] events served 100 to a
    page, with [total_stars] a positive multiple of 100 below 40000, the
    call asks for page [total_stars / 100 + 1], finds it empty, and
    returns 0 whatever the events are. *)
Theorem multiple_of_100_reads_empty_page :
  forall (now : Z) (hist : list json),
    1 <= Z.of_nat (List.length hist) < 40000 ->
    Z.of_nat (List.length hist) mod 100 = 0 ->
    page_of hist (Z.of_nat (List.length hist) / 100 + 1) = []
    /\ get_star_velocity strptime now (serve hist)
                         (Z.of_nat (List.length hist))
       = Call (ret 0) [Z.of_nat (List.length hist) / 100 + 1].
Proof.
  intros now hist Hrange Hmod.
  set (n := List.length hist) in *.
  assert (Hq : Z.of_nat n / 100 = Z.of_nat (n / 100))
    by (now rewrite (Nat2Z.inj_div n 100)).
  assert (Hm : Z.of_nat n mod 100 = Z.of_nat (n mod 100))
    by (now rewrite (Nat2Z.inj_mod n 100)).
  pose proof (Nat.div_mod_eq n 100) as Hn.
  assert (Hpage : page_of hist (Z.of_nat n / 100 + 1) = []).
  { rewrite Hq.
    replace (Z.of_nat (n / 100) + 1) with (Z.of_nat (S (n / 100))) by lia.
    rewrite page_of_succ.
    replace (100 * (n / 100))%nat with n by lia.
    unfold n. now rewrite skipn_all, firstn_nil. }
  split; [exact Hpage|].
  assert (Hlp : last_page_of (Z.of_nat n) = Z.of_nat n / 100 + 1).
  { rewrite first_page_arith.
    assert (Z.of_nat n / 100 < 400) by (apply Z.div_lt_upper_bound; lia).
    lia. }
  rewrite <- Hlp.
  apply first_page_failed; [lia|].
  unfold serve, ret. rewrite Hlp, Hpage.
  now apply failed_empty.
Qed.

End FirstPage.

(* ================================================================== *)
(** ** Further properties: worked examples *)

Lemma summary_summary_of (name login description html_url : json) (stars : Z) :
  summary_of (summary name login description html_url stars)
             name login description html_url stars.
Proof. exists (JObj [("login"%string, login)]). repeat split. Qed.

Lemma negative_total_stars_no_request_witness :
  -5 < 0
  /\ get_star_velocity Datetime.strptime_padded noon
                       (fun _ => ok two_recent) (-5)
     = Call (ret 0) [].
Proof.
  assert (H : -5 < 0) by lia.
  split; [exact H|].
  exact (negative_total_stars_no_request Datetime.strptime_padded noon
           (fun _ => ok two_recent) (-5) H).
Defined.

Lemma result_depends_on_five_pages_witness :
  get_star_velocity Datetime.strptime_padded noon (fun _ => ok two_recent) 250
  = get_star_velocity Datetime.strptime_padded noon three_pages 250.
Proof.
  apply result_depends_on_five_pages.
  intros p H1 H2. unfold three_pages.
  replace (last_page_of 250) with 3 in H2 by reflexivity.
  replace (1 <=? p) with true by (symmetry; apply Z.leb_le; lia).
  replace (p <=? 3) with true by (symmetry; apply Z.leb_le; lia).
  reflexivity.
Defined.

Lemma velocity_at_most_500_witness :
  exists v,
    outcome (get_star_velocity Datetime.strptime_padded noon
                               (fun _ => ok two_recent) 250) = inr v
    /\ v <= 100 * Z.of_nat (List.length
               (fetched (get_star_velocity Datetime.strptime_padded noon
                                           (fun _ => ok two_recent) 250)))
    /\ v <= 500.
Proof.
  apply velocity_at_most_500.
  intro p. vm_compute. lia.
Defined.

Lemma later_clock_never_counts_more_witness :
  noon <= busy_now
  /\ exists v_earlier v_later more,
       outcome (get_star_velocity Datetime.strptime_padded noon
                                  (serve short_history) 3) = inr v_earlier
       /\ outcome (get_star_velocity Datetime.strptime_padded busy_now
                                     (serve short_history) 3) = inr v_later
       /\ v_later <= v_earlier
       /\ fetched (get_star_velocity Datetime.strptime_padded noon
                                     (serve short_history) 3)
          = fetched (get_star_velocity Datetime.strptime_padded busy_now
                                       (serve short_history) 3) ++ more.
Proof.
  assert (H : noon <= busy_now) by (vm_compute; discriminate).
  split; [exact H|].
  exact (later_clock_never_counts_more Datetime.strptime_padded
           (serve short_history) 3 noon busy_now H).
Defined.

Lemma first_old_event_ends_the_call_witness :
  finish (while_loop Datetime.strptime_padded (fun _ => ok short_history)
                     (cutoff_of noon) 5 (State 0 3 0 []))
  = Call (ret (0 + Z.of_nat 2)) ([] ++ [3]).
Proof.
  apply (first_old_event_ends_the_call Datetime.strptime_padded
           (fun _ => ok short_history) (cutoff_of noon) 4 (State 0 3 0 [])
           short_history
           [star_at "2024-01-12T23:59:59Z"; star_at "2024-01-09T17:45:10Z"]
           [] (star_at "2024-01-05T08:30:00Z")
           [Datetime.datetime 2024 1 12 23 59 59;
            Datetime.datetime 2024 1 9 17 45 10]
           (Datetime.datetime 2024 1 5 8 30 0)).
  - reflexivity.
  - reflexivity.
  - reflexivity.
  - reflexivity.
  - repeat constructor.
  - reflexivity.
  - vm_compute. discriminate.
Defined.

Lemma unreachable_repository_row_witness :
  scan_repo Datetime.strptime_padded two_repos 0 repo_a = inr row_tokio.
Proof.
  apply (unreachable_repository_row Datetime.strptime_padded two_repos 0
           repo_a (JStr "tokio") (JStr "tokio-rs") (JStr "runtime")
           (JStr "https://github.com/tokio-rs/tokio") 100000).
  - apply summary_summary_of.
  - lia.
  - apply failed_status. discriminate.
Defined.

Lemma malformed_item_aborts_scan_witness :
  subscript nameless "name" = inl KeyError
  /\ run_scan Datetime.strptime_padded by_position one_nameless "rust"
     = inl KeyError.
Proof.
  assert (H : subscript nameless "name" = inl KeyError) by reflexivity.
  split; [exact H|].
  apply (malformed_item_aborts_scan Datetime.strptime_padded by_position
           one_nameless "rust" [repo_b] [] nameless KeyError).
  - reflexivity.
  - repeat constructor. apply summary_is_summary.
  - exact H.
Defined.

Lemma response_without_items_is_empty_witness :
  fetch_repos rate_limited "rust" 30 = JArr []
  /\ run_scan Datetime.strptime_padded by_position rate_limited "rust"
     = inr [].
Proof.
  apply (response_without_items_is_empty Datetime.strptime_padded
           by_position rate_limited "rust"
           (JObj [("message"%string, JStr "API rate limit exceeded")])).
  - reflexivity.
  - intros fields E. injection E as <-. reflexivity.
Defined.

Lemma items_not_iterable_raises_witness :
  fetch_repos null_items "rust" 30 = JNull
  /\ run_scan Datetime.strptime_padded by_position null_items "rust"
     = inl TypeError.
Proof.
  apply (items_not_iterable_raises Datetime.strptime_padded by_position
           null_items "rust"
           [("total_count"%string, JNum 0); ("items"%string, JNull)] JNull).
  - reflexivity.
  - reflexivity.
  - now left.
Defined.

Lemma top_mover_has_maximal_velocity_witness :
  exists r,
    top_repo (sort_values by_position Velocity false [row_tokio; row_axum]) = Some (Name r)
    /\ In r [row_tokio; row_axum]
    /\ (forall r', In r' [row_tokio; row_axum] -> Velocity r' <= Velocity r).
Proof.
  apply (top_mover_has_maximal_velocity
           (sort_values by_position Velocity false)
           (sort_values_permutes by_position Velocity false)
           (sort_values_sorts by_position Velocity false)
           [row_tokio; row_axum]).
  discriminate.
Defined.

Lemma velocity_leaders_are_the_top_witness :
  List.length (top_10 (sort_values by_position Velocity false [row_tokio; row_axum]))
  = Nat.min 10 (List.length [row_tokio; row_axum]).
Proof.
  exact (proj1 (velocity_leaders_are_the_top
                  (sort_values by_position Velocity false)
                  (sort_values_permutes by_position Velocity false)
                  (sort_values_sorts by_position Velocity false)
                  [row_tokio; row_axum])).
Defined.

(** The runs behind the last witnesses. *)
Example dashboard_of_two_repos :
  top_repo (sort_values by_position Velocity false [row_tokio; row_axum]) = Some (JStr "axum")
  /\ breakout_count (sort_values by_position Velocity false [row_tokio; row_axum]) = 1%nat
  /\ candidates_scanned (sort_values by_position Velocity false [row_tokio; row_axum]) = 2%nat.
Proof. repeat split; vm_compute; reflexivity. Qed.

Lemma small_repository_one_request_witness :
  fetched (get_star_velocity Datetime.strptime_padded noon
                             (serve short_history) 3) = [1].
Proof.
  apply small_repository_one_request. lia.
Defined.

Lemma multiple_of_100_reads_empty_page_witness :
  page_of hundred (Z.of_nat (List.length hundred) / 100 + 1) = []
  /\ get_star_velocity Datetime.strptime_padded noon (serve hundred)
                       (Z.of_nat (List.length hundred))
     = Call (ret 0) [Z.of_nat (List.length hundred) / 100 + 1].
Proof.
  apply multiple_of_100_reads_empty_page.
  - vm_compute. split; [discriminate | reflexivity].
  - vm_compute. reflexivity.
Defined.

(** Rows of equal velocity come as the tie rule has them; the order of
    the velocities is the same either way. *)
Example equal_velocities_follow_the_tie :
  sort_values by_position Velocity false [row_tokio; row_axum; row_mio]
  = [row_axum; row_mio; row_tokio]
  /\ sort_values last_first Velocity false [row_tokio; row_axum; row_mio]
     = [row_mio; row_axum; row_tokio]
  /\ sort_values by_position Velocity true [row_axum; row_tokio; row_mio]
     = [row_tokio; row_axum; row_mio].
Proof. repeat split; vm_compute; reflexivity. Qed.
